(** * sumi: the colour algebra, the blend operations and the render pass

    A shallow embedding of [public/types/HLSL.ts], [src/utils/Logger.ts] and
    [src/components/Canvas.tsx].

    Numbers are JavaScript numbers, that is IEEE 754 binary64 values: they are
    modelled by Rocq's primitive floats, whose operations are the same
    binary64 operations (round to nearest, signed zeros, infinities, one NaN).
    A thrown exception is an explicit [Throw] result. *)

From Stdlib Require Import Floats ZArith Uint63 Ascii String List Lia.
From Stdlib Require DecimalString.
From stdpp Require Import gmap.
Import ListNotations.

Local Open Scope list_scope.
Local Open Scope string_scope.

(** ** JavaScript values and completions *)

Module JS.

(** What a [throw] carries.  An object may or may not have a [message] and a
    [toString] property (the two that [Canvas.tsx] probes with [in]); a
    primitive has none, and [in] applied to it throws a [TypeError]. *)
Record ErrorObject := { message : option string; toString : option string }.

Inductive thrown :=
| ThrownObject (o : ErrorObject)
| ThrownPrimitive (p : string).

(** [new Error(msg)]. *)
Definition Error (msg : string) : thrown :=
  ThrownObject {| message := Some msg; toString := Some ("Error: " ++ msg) |}.

(** [new TypeError(msg)], [new RangeError(msg)]. *)
Definition TypeError (msg : string) : thrown :=
  ThrownObject {| message := Some msg; toString := Some ("TypeError: " ++ msg) |}.
Definition RangeError (msg : string) : thrown :=
  ThrownObject {| message := Some msg; toString := Some ("RangeError: " ++ msg) |}.

Inductive result (A : Type) :=
| Ok (a : A)
| Throw (e : thrown).
Arguments Ok {A} a.
Arguments Throw {A} e.

Definition bind {A B} (m : result A) (k : A -> result B) : result B :=
  match m with
  | Ok a => k a
  | Throw e => Throw e
  end.

(** A number slot as the program can meet it at run time: a number, or
    [undefined] (a constructor called with too few arguments, an array read
    past its end). *)
Inductive jsval :=
| Num (n : float)
| Undefined.

(** The coercion the arithmetic operators apply to their operands. *)
Definition ToNumber (v : jsval) : float :=
  match v with
  | Num n => n
  | Undefined => nan
  end.

Definition mul (a b : jsval) : float := (ToNumber a * ToNumber b)%float.
Definition add (a b : jsval) : float := (ToNumber a + ToNumber b)%float.
Definition sub (a b : jsval) : float := (ToNumber a - ToNumber b)%float.
Definition div (a b : jsval) : float := (ToNumber a / ToNumber b)%float.

(** [v === 0]: no coercion, IEEE equality on numbers ([-0 === 0]). *)
Definition strict_eq_zero (v : jsval) : bool :=
  match v with
  | Num n => (n =? 0)%float
  | Undefined => false
  end.

(** [arr[i]]: [undefined] past the end. *)
Definition index (arr : list jsval) (i : nat) : jsval := nth i arr Undefined.

(** [Math.max] and [Math.min] of two numbers: NaN if either is NaN, and
    [-0] counts as smaller than [+0]. *)
Definition Math_max (a b : float) : float :=
  if (is_nan a || is_nan b)%bool then nan
  else if (a <? b)%float then b
  else if (b <? a)%float then a
  else if get_sign a then b else a.

Definition Math_min (a b : float) : float :=
  if (is_nan a || is_nan b)%bool then nan
  else if (a <? b)%float then a
  else if (b <? a)%float then b
  else if get_sign a then a else b.

(** [`${n}`] for a non-negative integer, and the double-quote character. *)
Definition template_of_nat (n : nat) : string :=
  DecimalString.NilEmpty.string_of_uint (Nat.to_uint n).

Definition quote : string := String (ascii_of_nat 34) EmptyString.

(** A loop [for (let i = 0; i < n; i++)] that fills [values[i]] and may
    throw: the values in index order, or the first throw. *)
Fixpoint collect {A} (f : nat -> result A) (idx : list nat) : result (list A) :=
  match idx with
  | [] => Ok []
  | i :: rest =>
      bind (f i) (fun v => bind (collect f rest) (fun vs => Ok (v :: vs)))
  end.

Definition for_values {A} (n : nat) (f : nat -> result A) : result (list A) :=
  collect f (seq 0 n).

End JS.

Import JS.

Notation "'let*' x ':=' m 'in' k" := (JS.bind m (fun x => k))
  (at level 10, x name, m at level 100, k at level 200, only parsing).

(** ** [public/types/HLSL.ts] *)

Module HLSL.

(** [defaultValueFor(index)] *)
Definition defaultValueFor (index : nat) : result float :=
  match index with
  | 0 | 1 | 2 => Ok 0%float
  | 3 => Ok 1%float
  | _ => Throw (Error ("Invalid dimension index " ++ quote
                         ++ template_of_nat index ++ quote))
  end.

(** The three classes that extend [Renderable]; the fields are the entries
    of [values] as the constructor stores them. *)
Inductive Renderable :=
| Scalar (scalar : jsval)
| Vector2 (r g : jsval)
| Vector3 (r g b : jsval).

Definition values (v : Renderable) : list jsval :=
  match v with
  | Scalar s => [s]
  | Vector2 r g => [r; g]
  | Vector3 r g b => [r; g; b]
  end.

Definition dimensions (v : Renderable) : nat :=
  match v with
  | Scalar _ => 1
  | Vector2 _ _ => 2
  | Vector3 _ _ _ => 3
  end.

(** [v.constructor] and [new Type(...args)]: missing arguments are
    [undefined], extra ones are dropped. *)
Inductive Constructor := CScalar | CVector2 | CVector3.

Definition constructor (v : Renderable) : Constructor :=
  match v with
  | Scalar _ => CScalar
  | Vector2 _ _ => CVector2
  | Vector3 _ _ _ => CVector3
  end.

Definition construct (T : Constructor) (args : list jsval) : Renderable :=
  match T with
  | CScalar => Scalar (index args 0)
  | CVector2 => Vector2 (index args 0) (index args 1)
  | CVector3 => Vector3 (index args 0) (index args 1) (index args 2)
  end.

(** *** The channel getters *)

Definition red (v : Renderable) : result jsval :=
  Ok (index (values v) 0).

Definition green (v : Renderable) : result jsval :=
  match v with
  | Scalar _ => Ok (index (values v) 0)
  | Vector2 _ _ | Vector3 _ _ _ => Ok (index (values v) 1)
  end.

Definition blue (v : Renderable) : result jsval :=
  match v with
  | Scalar _ => Ok (index (values v) 0)
  | Vector2 _ _ => let* d := defaultValueFor 2 in Ok (Num d)
  | Vector3 _ _ _ => Ok (index (values v) 2)
  end.

Definition alpha (v : Renderable) : result jsval :=
  let* d := defaultValueFor 3 in Ok (Num d).

(** *** [Scalar] methods ([this] is the receiver) *)

Definition Scalar_multiply (this other : Renderable) : Renderable :=
  construct (constructor other)
    (map (fun i => Num (mul (index (values this) 0) (index (values other) i)))
         (seq 0 (dimensions other))).

Definition Scalar_add (this other : Renderable) : Renderable :=
  construct (constructor other)
    (map (fun i => Num (add (index (values this) 0) (index (values other) i)))
         (seq 0 (dimensions other))).

Definition Scalar_subtract (this other : Renderable) : Renderable :=
  construct (constructor other)
    (map (fun i => Num (sub (index (values this) 0) (index (values other) i)))
         (seq 0 (dimensions other))).

Definition Scalar_divide (this other : Renderable) : Renderable :=
  construct (constructor other)
    (map (fun i =>
            if strict_eq_zero (index (values other) i) then Num 0%float
            else Num (div (index (values this) 0) (index (values other) i)))
         (seq 0 (dimensions other))).

Definition Scalar_distance (this other : Renderable) : Renderable :=
  Scalar (Num (PrimFloat.abs (sub (index (values this) 0) (index (values other) 0)))).

(** *** [Vector2] methods *)

Definition Vector2_binop (op : jsval -> jsval -> float) (name : string)
    (this other : Renderable) : result Renderable :=
  match dimensions other with
  | 1 | 2 =>
      let* tr := red this in
      let* or := red other in
      let* tg := green this in
      let* og := green other in
      Ok (Vector2 (Num (op tr or)) (Num (op tg og)))
  | _ => Throw (Error ("Invalid arguments for Vector2." ++ name))
  end.

Definition Vector2_multiply := Vector2_binop mul "multiply".
Definition Vector2_add := Vector2_binop add "add".
Definition Vector2_subtract := Vector2_binop sub "subtract".
Definition Vector2_divide := Vector2_binop div "divide".

(** *** [Vector3] methods *)

Definition Vector3_binop (op : jsval -> jsval -> float) (name : string)
    (this other : Renderable) : result Renderable :=
  match dimensions other with
  | 1 | 3 =>
      let* tr := red this in
      let* or := red other in
      let* tg := green this in
      let* og := green other in
      let* tb := blue this in
      let* ob := blue other in
      Ok (Vector3 (Num (op tr or)) (Num (op tg og)) (Num (op tb ob)))
  | _ => Throw (Error ("Invalid arguments for Vector3." ++ name))
  end.

Definition Vector3_multiply := Vector3_binop mul "multiply".
Definition Vector3_add := Vector3_binop add "add".
Definition Vector3_subtract := Vector3_binop sub "subtract".
Definition Vector3_divide := Vector3_binop div "divide".

(** [a.divide(b)]: the method of [a]'s class. *)
Definition divide (this other : Renderable) : result Renderable :=
  match this with
  | Scalar _ => Ok (Scalar_divide this other)
  | Vector2 _ _ => Vector2_divide this other
  | Vector3 _ _ _ => Vector3_divide this other
  end.

(** *** The blend operations installed on [Math] *)

(** An argument of a blend operation: a primitive or a [Renderable]. *)
Inductive operand :=
| Prim (v : jsval)
| Obj (o : Renderable).

(** [v ?? d]: [d] is used only when [v] is [undefined]. *)
Definition nullish (v : jsval) (d : result float) : result float :=
  match v with
  | Num n => Ok n
  | Undefined => d
  end.

(** [v ?? defaultValueFor(i)] for a channel [i] below 3, whose default
    is 0. *)
Definition filled (v : jsval) : float :=
  match v with
  | Num n => n
  | Undefined => 0%float
  end.

(** The first branch of [Math.lerp]: both arguments are numbers. *)
Definition lerp_number (a b t : float) : float := (a + (b - a) * t)%float.

(** [Math.lerp].  The call inside the loop is on two numbers (each is a
    stored number or a default), so it is the first branch. *)
Definition Math_lerp (a b : operand) (t : float) : result operand :=
  match a, b with
  | Prim (Num x), Prim (Num y) => Ok (Prim (Num (lerp_number x y t)))
  | Obj a, Obj b =>
      let T := if (dimensions b <? dimensions a)%nat
                  then constructor a else constructor b in
      let* vals :=
        for_values (dimensions a) (fun i =>
          let* ai := nullish (index (values a) i) (defaultValueFor i) in
          let* bi := nullish (index (values b) i) (defaultValueFor i) in
          Ok (Num (lerp_number ai bi t))) in
      Ok (Obj (construct T vals))
  | _, _ => Throw (Error "Invalid arguments for Math.lerp")
  end.

(** [Math.clamp] on three primitives: the number branch when all three are
    numbers; no primitive is an object, so anything else throws. *)
Definition Math_clamp_prim (x min max : jsval) : result float :=
  match x, min, max with
  | Num x, Num mn, Num mx => Ok (Math_min (Math_max x mn) mx)
  | _, _, _ => Throw (Error "Invalid arguments for Math.clamp")
  end.

(** [Math.clamp].  The call inside the loop has two numbers and
    [max.values[i]] as it is, with no default. *)
Definition Math_clamp (x min max : operand) : result operand :=
  match x, min, max with
  | Prim x, Prim mn, Prim mx =>
      let* c := Math_clamp_prim x mn mx in Ok (Prim (Num c))
  | Obj x, Obj mn, Obj mx =>
      let T := if (dimensions mn <? dimensions x)%nat
                  then constructor x else constructor mn in
      let* vals :=
        for_values (dimensions x) (fun i =>
          let* xi := nullish (index (values x) i) (defaultValueFor i) in
          let* mi := nullish (index (values mn) i) (defaultValueFor i) in
          let* c := Math_clamp_prim (Num xi) (Num mi) (index (values mx) i) in
          Ok (Num c)) in
      Ok (Obj (construct T vals))
  | _, _, _ => Throw (Error "Invalid arguments for Math.clamp")
  end.

(** The first branch of [Math.inverseLerp]: three numbers. *)
Definition inverseLerp_number (a b v : float) : float := ((v - a) / (b - a))%float.

(** Modelled from the spec: [Math.remap] is declared in [HLSL.ts] (with its
    documentation) but no file assigns it.  The spec's words: a linear remap
    of [v] from [[iMin,iMax]] to [[oMin,oMax]], which fails with a
    [RangeError] when [v] is outside [[iMin,iMax]].  The linear map is
    the scalar [inverseLerp] followed by the scalar [lerp]. *)
Definition outside (iMin iMax v : float) : bool :=
  ((v <? iMin) || (iMax <? v))%float%bool.

Definition Math_remap (iMin iMax oMin oMax v : float) : result float :=
  if outside iMin iMax v
  then Throw (RangeError "v is not between iMin and iMax")
  else Ok (lerp_number oMin oMax (inverseLerp_number iMin iMax v)).

(** The host's [Math.exp] and [Math.pow] are not part of the repository;
    the operations that call them take them as parameters. *)
Section Host.

Variable Math_exp : float -> float.
Variable Math_pow : float -> float -> float.

(** [Vector2.distance] *)
Definition Vector2_distance (this other : Renderable) : result Renderable :=
  let* tr := red this in
  let* or := red other in
  let* tg := green this in
  let* og := green other in
  Ok (Scalar (Num (PrimFloat.sqrt (Math_pow (sub tr or) 2 + Math_pow (sub tg og) 2)%float))).

(** [Math.radialGradientExponential] *)
Definition Math_radialGradientExponential
    (uv centerPosition radius density : Renderable) : result Renderable :=
  let* d := Vector2_distance uv centerPosition in
  let* distance := red d in
  let* dens := red density in
  let value := Math_exp (mul (Num (- ToNumber distance)) dens) in
  Ok (Scalar (Num value)).

End Host.

End HLSL.


(** ** [src/utils/Logger.ts] *)

Module Logger.

Definition newline : string := String (ascii_of_nat 10) EmptyString.

(** [Array.prototype.join] on strings. *)
Definition join (sep : string) (parts : list string) : string :=
  String.concat sep parts.

Record Logger := { logs : list string }.

(** [new Logger()] *)
Definition new : Logger := {| logs := [] |}.

Definition push (line : string) (l : Logger) : Logger :=
  {| logs := (logs l ++ [line])%list |}.

Definition log (message : list string) (l : Logger) : Logger :=
  push (join " " message) l.

Definition warn (message : list string) (l : Logger) : Logger :=
  push ("WARNING: " ++ join " " message) l.

Definition error (message : list string) (l : Logger) : Logger :=
  push ("ERROR: " ++ join " " message) l.

Definition toString (l : Logger) : string := join newline (logs l).

End Logger.

(** ** [src/components/Canvas.tsx] *)

Module Canvas.

Import HLSL.

Definition renderSize : nat := 512.

(** The 2D context: the size of the canvas it belongs to, the current
    [fillStyle] and the bitmap (a missing pixel is transparent).  A style is
    kept as the string that was assigned; the host's parsing of colour
    strings is not part of the repository. *)
Record CanvasRenderingContext2D := {
  canvas_width : nat;
  canvas_height : nat;
  fillStyle : string;
  bitmap : gmap (nat * nat) string
}.

(** The canvas element: [getContext("2d")] may return [null]. *)
Record HTMLCanvasElement := { getContext : option CanvasRenderingContext2D }.

(** The element the component renders:
    [<canvas width={renderSize} height={renderSize} />]. *)
Definition canvas_element (style : string) (pixels : gmap (nat * nat) string)
    : HTMLCanvasElement :=
  {| getContext := Some {| canvas_width := renderSize; canvas_height := renderSize;
                           fillStyle := style; bitmap := pixels |} |}.

Definition rect (x y w h : nat) : list (nat * nat) :=
  list_prod (seq x w) (seq y h).

Definition inside (c : CanvasRenderingContext2D) (p : nat * nat) : bool :=
  ((fst p <? canvas_width c)%nat && (snd p <? canvas_height c)%nat)%bool.

Definition set_fillStyle (style : string) (c : CanvasRenderingContext2D)
    : CanvasRenderingContext2D :=
  {| canvas_width := canvas_width c; canvas_height := canvas_height c;
     fillStyle := style; bitmap := bitmap c |}.

Definition set_bitmap (pixels : gmap (nat * nat) string)
    (c : CanvasRenderingContext2D) : CanvasRenderingContext2D :=
  {| canvas_width := canvas_width c; canvas_height := canvas_height c;
     fillStyle := fillStyle c; bitmap := pixels |}.

(** [context.clearRect(x, y, w, h)] *)
Definition clearRect (x y w h : nat) (c : CanvasRenderingContext2D)
    : CanvasRenderingContext2D :=
  set_bitmap (fold_left (fun m p => delete p m) (rect x y w h) (bitmap c)) c.

(** [context.fillRect(x, y, w, h)]: only pixels of the bitmap are painted. *)
Definition fillRect (x y w h : nat) (c : CanvasRenderingContext2D)
    : CanvasRenderingContext2D :=
  set_bitmap
    (fold_left (fun m p => if inside c p then <[p := fillStyle c]> m else m)
               (rect x y w h) (bitmap c)) c.

(** [RenferFunction]: called with [texCoord] (and the three constructors,
    which are the same at every call), it returns an object with a [render]
    method, or throws; [render()] returns a string, or throws.  The compiled
    program is a function of its coordinate argument. *)
Record RenderObject := { render : result string }.
Definition RenferFunction := Renderable -> result RenderObject.

(** [for (let i = 0; i < n; i++) body] on a state. *)
Definition for_loop {S : Type} (n : nat) (body : nat -> S -> S) (s : S) : S :=
  fold_left (fun s i => body i s) (seq 0 n) s.

Definition number_of_nat (n : nat) : float := of_uint63 (Uint63.of_Z (Z.of_nat n)).

(** [new Vector2(x / renderSize, y / renderSize)] *)
Definition texCoord_at (x y : nat) : Renderable :=
  Vector2 (Num (number_of_nat x / number_of_nat renderSize)%float)
          (Num (number_of_nat y / number_of_nat renderSize)%float).

(** What the loop body draws and with which argument it called the program. *)
Record raster := {
  context : CanvasRenderingContext2D;
  invoked : list Renderable
}.

(** The body of the inner loop: the [try]/[catch] around the call, then
    [fillRect(x, y, 1, 1)]. *)
Definition paint (renderFunction : RenferFunction) (x y : nat) : string :=
  match (let* o := renderFunction (texCoord_at x y) in render o) with
  | Ok style => style
  | Throw _ => "#000000"
  end.

Definition pixel (renderFunction : RenferFunction) (x y : nat) (r : raster) : raster :=
  {| context := fillRect x y 1 1 (set_fillStyle (paint renderFunction x y) (context r));
     invoked := (invoked r ++ [texCoord_at x y])%list |}.

Definition pixel_loop (renderFunction : RenferFunction) (r : raster) : raster :=
  for_loop renderSize (fun x =>
    for_loop renderSize (fun y => pixel renderFunction x y)) r.

(** How the [try] block of the effect ends. *)
Inductive completion :=
| Normal
| Return
| Abrupt (e : thrown).

(** The [catch] block of the compile step: the lines it logs, and how it
    ends ([in] applied to a primitive throws a [TypeError]). *)
Definition compile_failed (err : thrown) (log : Logger.Logger)
    : Logger.Logger * completion :=
  let log := Logger.error ["Shader compilation failed"] log in
  match err with
  | ThrownPrimitive _ =>
      (log, Abrupt (TypeError "Cannot use 'in' operator to search for 'message'"))
  | ThrownObject o =>
      match message o with
      | Some m => (Logger.error [m] log, Return)
      | None =>
          match toString o with
          | Some s => (Logger.error [s] log, Return)
          | None => (log, Return)
          end
      end
  end.

(** One run of the effect: what it leaves behind. *)
Record pass := {
  canvas_after : option HTMLCanvasElement;
  invocations : list Renderable;
  setOutput_calls : list string;
  uncaught : option thrown
}.

Section Effect.

(** The host's [new Function("texCoord", "Scalar", "Vector2", "Vector3",
    "Vector4", transpile(source))]: a callable, or a throw. *)
Variable new_Function : string -> result RenferFunction.

(** The [try] block.  ([renderFunction] starts as a stub that is never
    called: the compile step either replaces it or the effect returns.) *)
Definition try_block (canvasRef : option HTMLCanvasElement) (code : string)
    (log : Logger.Logger)
    : Logger.Logger * option HTMLCanvasElement * list Renderable * completion :=
  match canvasRef with
  | None => (Logger.error ["No canvas"] log, canvasRef, [], Return)
  | Some canvas =>
      match getContext canvas with
      | None => (Logger.error ["No canvas context"] log, canvasRef, [], Return)
      | Some context0 =>
          let log := Logger.log ["Compiling shader..."] log in
          match new_Function (code ++ Logger.newline ++ "return main();") with
          | Throw err =>
              let '(log, c) := compile_failed err log in
              (log, canvasRef, [], c)
          | Ok renderFunction =>
              let log := Logger.log ["Shader compiled successfully"] log in
              let cleared := clearRect 0 0 renderSize renderSize context0 in
              let r := pixel_loop renderFunction
                         {| context := cleared; invoked := [] |} in
              let log :=
                Logger.log
                  ["Rendered " ++ template_of_nat (canvas_width (context r)) ++ "x"
                     ++ template_of_nat (canvas_height (context r)) ++ " pixels"]
                  log in
              (log, Some {| getContext := Some (context r) |}, invoked r, Normal)
          end
      end
  end.

(** The effect: [try { ... } finally { props.setOutput(log.toString()) }]. *)
Definition useEffect (canvasRef : option HTMLCanvasElement) (code : string) : pass :=
  let log := Logger.new in
  let '(log, canvas, calls, c) := try_block canvasRef code log in
  {| canvas_after := canvas;
     invocations := calls;
     setOutput_calls := [Logger.toString log];
     uncaught := match c with Abrupt e => Some e | _ => None end |}.

End Effect.

End Canvas.


(** ** The rest of [public/types/HLSL.ts] *)

Module Geometry.

Import HLSL.

(** All stored components are numbers, as the classes' field types say. *)
Definition is_number (v : jsval) : bool :=
  match v with
  | Num _ => true
  | Undefined => false
  end.

Definition numeric (v : Renderable) : bool := forallb is_number (values v).

(** All stored components are finite numbers; none is NaN. *)
Definition finite_components (v : Renderable) : bool :=
  forallb (fun c => match c with
                    | Num n => is_finite n
                    | Undefined => false
                    end) (values v).

Definition no_NaN (v : Renderable) : bool :=
  forallb (fun c => match c with
                    | Num n => negb (is_nan n)
                    | Undefined => false
                    end) (values v).

(** [a === b] on two slots, and on the components of two values of the same
    dimension. *)
Definition strict_eq (a b : jsval) : bool :=
  match a, b with
  | Num x, Num y => (x =? y)%float
  | Undefined, Undefined => true
  | _, _ => false
  end.

Definition same_components (a b : Renderable) : bool :=
  ((dimensions a =? dimensions b)%nat
   && forallb (fun p => strict_eq (fst p) (snd p)) (combine (values a) (values b)))%bool.

(** [a_i <= b_i] on the components of two values of the same dimension. *)
Definition number_le (a b : jsval) : bool :=
  match a, b with
  | Num x, Num y => (x <=? y)%float
  | _, _ => false
  end.

Definition components_le (a b : Renderable) : bool :=
  ((dimensions a =? dimensions b)%nat
   && forallb (fun p => number_le (fst p) (snd p)) (combine (values a) (values b)))%bool.

(** *** The palettes *)

Definition Scalar_minusOne : Renderable := Scalar (Num (-1)%float).
Definition Scalar_one : Renderable := Scalar (Num 1%float).
Definition Scalar_zero : Renderable := Scalar (Num 0%float).
Definition Scalar_half : Renderable := Scalar (Num 0.5%float).
Definition Scalar_two : Renderable := Scalar (Num 2%float).
Definition Scalar_black : Renderable := Scalar (Num 0%float).
Definition Scalar_white : Renderable := Scalar (Num 1%float).
Definition Vector3_white : Renderable := Vector3 (Num 1%float) (Num 1%float) (Num 1%float).
Definition Vector3_black : Renderable := Vector3 (Num 0%float) (Num 0%float) (Num 0%float).
Definition Vector3_red : Renderable := Vector3 (Num 1%float) (Num 0%float) (Num 0%float).
Definition Vector3_green : Renderable := Vector3 (Num 0%float) (Num 1%float) (Num 0%float).
Definition Vector3_blue : Renderable := Vector3 (Num 0%float) (Num 0%float) (Num 1%float).
Definition Vector3_purple : Renderable := Vector3 (Num 0.5%float) (Num 0%float) (Num 0.5%float).

(** [a.multiply(b)], [a.add(b)], [a.subtract(b)]: the method of [a]'s
    class. *)
Definition multiply (this other : Renderable) : result Renderable :=
  match this with
  | Scalar _ => Ok (Scalar_multiply this other)
  | Vector2 _ _ => Vector2_multiply this other
  | Vector3 _ _ _ => Vector3_multiply this other
  end.

Definition add (this other : Renderable) : result Renderable :=
  match this with
  | Scalar _ => Ok (Scalar_add this other)
  | Vector2 _ _ => Vector2_add this other
  | Vector3 _ _ _ => Vector3_add this other
  end.

Definition subtract (this other : Renderable) : result Renderable :=
  match this with
  | Scalar _ => Ok (Scalar_subtract this other)
  | Vector2 _ _ => Vector2_subtract this other
  | Vector3 _ _ _ => Vector3_subtract this other
  end.

(** *** [Vector2]: [dot], [cross] *)

Definition Vector2_dot (this other : Renderable) : result Renderable :=
  let* tr := red this in
  let* or := red other in
  let* tg := green this in
  let* og := green other in
  Ok (Scalar (Num (mul tr or + mul tg og)%float)).

Definition Vector2_cross (this other : Renderable) : result Renderable :=
  let* tr := red this in
  let* og := green other in
  let* tg := green this in
  let* or := red other in
  Ok (Scalar (Num (mul tr og - mul tg or)%float)).

(** *** [Vector3]: [lengthSquared], [length], [distance], [dot], [cross] *)

Definition Vector3_lengthSquared (this : Renderable) : result Renderable :=
  let* r := red this in
  let* g := green this in
  let* b := blue this in
  Ok (Scalar (Num (mul r r + mul g g + mul b b)%float)).

Definition Vector3_length (this : Renderable) : result Renderable :=
  let* squared := Vector3_lengthSquared this in
  let* r := red squared in
  Ok (Scalar (Num (PrimFloat.sqrt (ToNumber r)))).

Definition Vector3_distance (this other : Renderable) : result Renderable :=
  let* difference := Vector3_subtract this other in
  Vector3_length difference.

Definition Vector3_dot (this other : Renderable) : result Renderable :=
  let* tr := red this in
  let* or := red other in
  let* tg := green this in
  let* og := green other in
  let* tb := blue this in
  let* ob := blue other in
  Ok (Scalar (Num (mul tr or + mul tg og + mul tb ob)%float)).

Definition Vector3_cross (this other : Renderable) : result Renderable :=
  let* tr := red this in
  let* or := red other in
  let* tg := green this in
  let* og := green other in
  let* tb := blue this in
  let* ob := blue other in
  Ok (Vector3 (Num (mul tg ob - mul tb og)%float)
              (Num (mul tb or - mul tr ob)%float)
              (Num (mul tr og - mul tg or)%float)).

(** *** [Vector3.fromHex] *)

(** The value of a character of the class [[0-9a-f]] under the [i] flag. *)
Definition hex_digit (c : ascii) : option nat :=
  let n := nat_of_ascii c in
  if ((48 <=? n) && (n <=? 57))%nat%bool then Some (n - 48)
  else if ((97 <=? n) && (n <=? 102))%nat%bool then Some (n - 87)
  else if ((65 <=? n) && (n <=? 70))%nat%bool then Some (n - 55)
  else None.

(** One capture group [([0-9a-f]{2})] and [parseInt(group, 16)]. *)
Definition hex_pair (c d : ascii) : option nat :=
  match hex_digit c, hex_digit d with
  | Some h, Some l => Some (16 * h + l)
  | _, _ => None
  end.

(** [Vector3.fromHex(color)]: the pattern is anchored at both ends, so the
    string is [#] and exactly six hexadecimal digits. *)
Definition Vector3_fromHex (color : string) : result Renderable :=
  match color with
  | String sharp (String r1 (String r2 (String g1 (String g2
      (String b1 (String b2 EmptyString)))))) =>
      if (nat_of_ascii sharp =? 35)%nat then
        match hex_pair r1 r2, hex_pair g1 g2, hex_pair b1 b2 with
        | Some r, Some g, Some b =>
            Ok (Vector3 (Num (Canvas.number_of_nat r / 255)%float)
                        (Num (Canvas.number_of_nat g / 255)%float)
                        (Num (Canvas.number_of_nat b / 255)%float))
        | _, _, _ => Throw (Error "Invalid color string")
        end
      else Throw (Error "Invalid color string")
  | _ => Throw (Error "Invalid color string")
  end.



End Geometry.

Module Blend.

Import HLSL.

(** [Math.inverseLerp] on three primitives: the number branch when all three
    are numbers; no primitive is an object, so anything else throws. *)
Definition Math_inverseLerp_prim (a b v : jsval) : result float :=
  match a, b, v with
  | Num a, Num b, Num v => Ok (inverseLerp_number a b v)
  | _, _, _ => Throw (Error "Invalid arguments for Math.inverseLerp")
  end.

(** The channels the [switch (maxDimension)] runs through, falling from the
    matching [case] to the last one. *)
Definition inverseLerp_channels (maxDimension : nat)
    : list (Renderable -> result jsval) :=
  match maxDimension with
  | 4 => [alpha; blue; green; red]
  | 3 => [blue; green; red]
  | 2 => [green; red]
  | 1 => [red]
  | _ => []
  end.

(** [sum += Math.inverseLerp(a.ch, b.ch, v.ch)], channel after channel. *)
Fixpoint inverseLerp_sum (channels : list (Renderable -> result jsval))
    (a b v : Renderable) (sum : float) : result float :=
  match channels with
  | [] => Ok sum
  | ch :: rest =>
      let* x := ch a in
      let* y := ch b in
      let* z := ch v in
      let* t := Math_inverseLerp_prim x y z in
      inverseLerp_sum rest a b v (sum + t)%float
  end.

(** [Math.inverseLerp] *)
Definition Math_inverseLerp (a b v : operand) : result float :=
  match a, b, v with
  | Prim a, Prim b, Prim v => Math_inverseLerp_prim a b v
  | Obj a, Obj b, Obj v =>
      let maxDimension :=
        Nat.max (Nat.max (dimensions a) (dimensions b)) (dimensions v) in
      let* sum := inverseLerp_sum (inverseLerp_channels maxDimension) a b v 0%float in
      Ok (sum / Canvas.number_of_nat maxDimension)%float
  | _, _, _ => Throw (Error "Invalid arguments for Math.inverseLerp")
  end.


(** The number an operand is in a product: an object is NaN there. *)
Definition operand_number (o : operand) : float :=
  match o with
  | Prim v => ToNumber v
  | Obj _ => nan
  end.

(** [Renderable.render()].  The host's conversion of a number to a string in
    a template literal is a parameter. *)
Section Render.

Variable Number_toString : float -> string.

(** [Math.clamp(this.channel, 0, 1) * 255] *)
Definition channel_byte (channel : result jsval) : result float :=
  let* c := channel in
  let* k := Math_clamp (Prim c) (Prim (Num 0%float)) (Prim (Num 1%float)) in
  Ok (operand_number k * 255)%float.

Definition render (this : Renderable) : result string :=
  let* r := channel_byte (red this) in
  let* g := channel_byte (green this) in
  let* b := channel_byte (blue this) in
  Ok ("rgb(" ++ Number_toString r ++ ", " ++ Number_toString g ++ ", "
        ++ Number_toString b ++ ")").

(** A shader [main] as a [RenferFunction]: the object it returns is a
    [Renderable], whose [render] method is the one above. *)
Definition program_of (main : Renderable -> result Renderable)
    : Canvas.RenferFunction :=
  fun texCoord =>
    let* v := main texCoord in
    Ok {| Canvas.render := render v |}.

End Render.

End Blend.

(** ** The order of binary64 numbers *)

Module Binary64.

(** The comparison of two numbers: none when one of them is NaN. *)
Definition cmp (a b : float) : option comparison :=
  SFcompare (Prim2SF a) (Prim2SF b).

End Binary64.

(** ** More hosts for the examples *)

Module Examples.

(** A host conversion of numbers to strings that is exact on NaN and on the
    integers from 0 to 255 (the bytes of a colour); it shows any other
    number as a placeholder. *)
Definition Number_toString (x : float) : string :=
  if is_nan x then "NaN"
  else match find (fun n => (Canvas.number_of_nat n =? x)%float) (seq 0 256) with
       | Some n => template_of_nat n
       | None => "<number>"
       end.

End Examples.

(** ** Hosts and programs for the examples *)

Module Sample.

Import HLSL Canvas.

(** A host [Math.exp]: the Taylor polynomial of degree [n], by Horner's
    rule.  It is exactly 1 at both zeros and NaN at NaN. *)
Fixpoint exp_horner (n : nat) (k x : float) : float :=
  match n with
  | O => 1%float
  | S n' => (1 + x / k * exp_horner n' (k + 1) x)%float
  end.

Definition Math_exp (x : float) : float := exp_horner 24 1 x.

(** A host [Math.pow], for the exponents 1 and 2. *)
Definition Math_pow (x y : float) : float :=
  if (y =? 2)%float then (x * x)%float
  else if (y =? 1)%float then x else nan.

(** A host whose [new Function] rejects every source with the given
    [SyntaxError] message, and one that accepts every source as the given
    program. *)
Definition rejecting (msg : string) : string -> result RenferFunction :=
  fun _ => Throw (ThrownObject {| message := Some msg;
                                  toString := Some ("SyntaxError: " ++ msg) |}).

Definition accepting (program : RenferFunction) : string -> result RenferFunction :=
  fun _ => Ok program.

(** [main] is not defined: every call throws a [ReferenceError]. *)
Definition throwing : RenferFunction :=
  fun _ => Throw (ThrownObject {| message := Some "main is not defined";
                                  toString := Some "ReferenceError: main is not defined" |}).

(** A blank canvas of the component. *)
Definition blank : HTMLCanvasElement := canvas_element "#000000" ∅.

End Sample.

(** * Properties *)

(** ** Binary64 facts used below *)

Module FloatFacts.

(** A finite number is a zero or has a mantissa and an exponent. *)
Lemma finite_cases (x : float) :
  is_finite x = true ->
  (exists s, Prim2SF x = S754_zero s) \/
  (exists s m e, Prim2SF x = S754_finite s m e).
Proof.
  unfold is_finite, Prim2SF.
  destruct (is_nan x); [discriminate|].
  destruct (is_infinity x); [discriminate|]. intros _.
  destruct (PrimFloat.is_zero x); [left; eauto|].
  destruct (FloatOps.Z.frexp x) as [r ex].
  destruct (shr_fexp _ _ _ _ _) as [shr e'].
  destruct (shr_m shr); eauto.
Qed.

(** [x - x] is [+0] for every finite [x]. *)
Lemma sub_diag_finite (x : float) :
  is_finite x = true -> (x - x)%float = 0%float.
Proof.
  intros Hx. apply Prim2SF_inj. rewrite FloatAxioms.sub_spec.
  destruct (finite_cases x Hx) as [[s ->] | (s & m & e & ->)].
  - destruct s; reflexivity.
  - unfold SF64sub, SFsub. rewrite Z.sub_diag. reflexivity.
Qed.

(** [-0 * d] is a zero for every finite [d]. *)
Lemma neg_zero_mul_finite (d : float) :
  is_finite d = true ->
  (neg_zero * d)%float = 0%float \/ (neg_zero * d)%float = neg_zero.
Proof.
  intros Hd.
  assert (H : exists s, Prim2SF (neg_zero * d)%float = S754_zero s).
  { rewrite FloatAxioms.mul_spec.
    destruct (finite_cases d Hd) as [[s ->] | (s & m & e & ->)];
      eexists; reflexivity. }
  destruct H as [s H].
  destruct s; [right | left]; apply Prim2SF_inj; rewrite H; reflexivity.
Qed.

End FloatFacts.

(** ** The colour algebra and the blend operations *)

Module Algebra.

Import HLSL.

Local Open Scope float_scope.

(** *** Division *)

(** [Scalar.divide] writes 0 wherever the divisor's component is a zero. *)
Lemma Scalar_divide_zero_component (this other : Renderable) (i : nat) :
  (i < dimensions other)%nat ->
  strict_eq_zero (index (values other) i) = true ->
  index (values (Scalar_divide this other)) i = Num 0.
Proof.
  intros Hi Hz. unfold Scalar_divide.
  destruct other as [s | r g | r g b]; simpl in *;
    repeat (destruct i as [|i]; [simpl in *; rewrite Hz; reflexivity|]);
    simpl in Hi; lia.
Qed.

(** C1 (the code at the failing input): [Vector2.divide] and
    [Vector3.divide] divide component by component with no test for a zero
    divisor, so [Vector2(1,2).divide(Vector2(0,4))] is
    [Vector2(Infinity, 0.5)], not [Vector2(0, 0.5)], and a zero divided by a
    zero gives NaN; [Scalar.divide], the sibling method, does substitute 0. *)
Theorem vector_divide_zero_component_not_zero :
  divide (Vector2 (Num 1) (Num 2)) (Vector2 (Num 0) (Num 4))
    = Ok (Vector2 (Num infinity) (Num 0.5))
  /\ divide (Vector3 (Num 0) (Num 1) (Num 2)) (Vector3 (Num 0) (Num 0) (Num 4))
    = Ok (Vector3 (Num nan) (Num infinity) (Num 0.5))
  /\ divide (Scalar (Num 1)) (Vector2 (Num 0) (Num 4))
    = Ok (Vector2 (Num 0) (Num 0.25)).
Proof. repeat split; vm_compute; reflexivity. Qed.

(** *** Channels *)

(** C2 (counterexample): the green and blue channels of a [Scalar] are its
    stored value, not the default 0. *)
Lemma Scalar_green_blue_not_default :
  green (Scalar (Num 0.5)) = Ok (Num 0.5)
  /\ blue (Scalar (Num 0.5)) = Ok (Num 0.5)
  /\ green (Scalar (Num 0.5)) <> Ok (Num 0)
  /\ blue (Scalar (Num 0.5)) <> Ok (Num 0).
Proof.
  repeat split; try reflexivity;
    intros H; apply (f_equal (fun r => match r with
                                       | Ok (Num n) => PrimFloat.is_zero n
                                       | _ => true
                                       end)) in H;
    vm_compute in H; discriminate H.
Qed.

(** C2 (amended): red is the first stored component and alpha is 1 on every
    variant; a [Scalar] is a gray, its green and blue are its stored value;
    on [Vector2] green is the second component and blue is the default 0;
    on [Vector3] green and blue are the second and third components. *)
Theorem channel_getters (v : Renderable) :
  red v = Ok (index (values v) 0)
  /\ alpha v = Ok (Num 1)
  /\ match v with
     | Scalar s => green v = Ok s /\ blue v = Ok s
     | Vector2 r g => green v = Ok g /\ blue v = Ok (Num 0)
     | Vector3 r g b => green v = Ok g /\ blue v = Ok b
     end.
Proof. destruct v; repeat split; reflexivity. Qed.

(** *** [Math.lerp] *)

(** X28: when [b] is not wider than [a], every component is the scalar lerp
    of the components, a component [b] lacks being taken as the default. *)
Lemma Math_lerp_first_not_narrower (a b : Renderable) (t : float) :
  (dimensions b <= dimensions a)%nat ->
  exists r,
    Math_lerp (Obj a) (Obj b) t = Ok (Obj r)
    /\ dimensions r = dimensions a
    /\ values r = map (fun i => Num (lerp_number (filled (index (values a) i))
                                                 (filled (index (values b) i)) t))
                      (seq 0 (dimensions a)).
Proof.
  intros Hd.
  destruct a as [sa | ra ga | ra ga ba]; destruct b as [sb | rb gb | rb gb bb];
    simpl in Hd; try lia;
    repeat match goal with v : jsval |- _ => destruct v end;
    eexists; repeat split; reflexivity.
Qed.

(** C3 (the code at the failing input): the loop of [Math.lerp] runs over
    [a.dimensions] only, so a [Scalar] lerped toward a [Vector3] builds a
    [Vector3] from one value: its second and third components are
    [undefined] instead of the lerp of the default 0 and 1. *)
Theorem Math_lerp_wider_second_operand :
  Math_lerp (Obj (Scalar (Num 0))) (Obj (Vector3 (Num 1) (Num 1) (Num 1))) 0.5
    = Ok (Obj (Vector3 (Num 0.5) Undefined Undefined)).
Proof. vm_compute. reflexivity. Qed.

(** *** [Math.clamp] *)

(** C7 (the code at the failing inputs): [max.values[i]] has no default, so
    a [Vector2] clamped between two [Scalar]s throws at its second
    component; and the loop runs over [x.dimensions] only, so a [Scalar]
    clamped between two [Vector2]s is a [Vector2] whose second component is
    [undefined]. *)
Theorem Math_clamp_broadcast_fails :
  Math_clamp (Obj (Vector2 (Num 0.5) (Num 0.5))) (Obj (Scalar (Num 0)))
             (Obj (Scalar (Num 1)))
    = Throw (Error "Invalid arguments for Math.clamp")
  /\ Math_clamp (Obj (Scalar (Num 0.5))) (Obj (Vector2 (Num 0) (Num 0)))
                (Obj (Vector2 (Num 1) (Num 1)))
    = Ok (Obj (Vector2 (Num 0.5) Undefined)).
Proof. split; vm_compute; reflexivity. Qed.

(** *** [Math.remap] *)

(** C6: [Math.remap] throws exactly when [v] is below [iMin] or above
    [iMax], what it throws is a [RangeError], and otherwise it returns the
    image of [v] under the linear map that sends [iMin] to [oMin] and [iMax]
    to [oMax]. *)
Theorem Math_remap_range (iMin iMax oMin oMax v : float) :
  ((exists e, Math_remap iMin iMax oMin oMax v = Throw e)
     <-> (v <? iMin) = true \/ (iMax <? v) = true)
  /\ (forall e, Math_remap iMin iMax oMin oMax v = Throw e ->
                e = RangeError "v is not between iMin and iMax")
  /\ (forall r, Math_remap iMin iMax oMin oMax v = Ok r ->
                r = oMin + (oMax - oMin) * ((v - iMin) / (iMax - iMin))).
Proof.
  unfold Math_remap, outside, lerp_number, inverseLerp_number.
  destruct (v <? iMin) eqn:Hlo; [|destruct (iMax <? v) eqn:Hhi]; simpl.
  - repeat split; eauto; intros ? H; inversion H; reflexivity.
  - repeat split; eauto; intros ? H; inversion H; reflexivity.
  - repeat split.
    + intros [e H]. discriminate H.
    + intros [H | H]; discriminate H.
    + intros ? H. discriminate H.
    + intros ? H. inversion H. reflexivity.
Qed.

(** A sample of it. *)
Lemma Math_remap_sample :
  Math_remap 0 10 100 200 5 = Ok 150
  /\ Math_remap 0 10 100 200 11 = Throw (RangeError "v is not between iMin and iMax").
Proof. split; vm_compute; reflexivity. Qed.

(** *** [Scalar] arithmetic *)

(** C10: for a [Scalar] [s] and an operand [v] of any of the three
    variants, the four [Scalar] methods return (they have no throwing path)
    a value of [v]'s variant whose components are, in order, [s * v_i],
    [s + v_i], [s - v_i], and for [divide] 0 where [v_i] is a zero and
    [s / v_i] elsewhere. *)
Theorem Scalar_methods_broadcast (s : jsval) (v : Renderable) :
  (constructor (Scalar_multiply (Scalar s) v) = constructor v
   /\ values (Scalar_multiply (Scalar s) v)
      = map (fun vi => Num (ToNumber s * ToNumber vi)) (values v))
  /\ (constructor (Scalar_add (Scalar s) v) = constructor v
      /\ values (Scalar_add (Scalar s) v)
         = map (fun vi => Num (ToNumber s + ToNumber vi)) (values v))
  /\ (constructor (Scalar_subtract (Scalar s) v) = constructor v
      /\ values (Scalar_subtract (Scalar s) v)
         = map (fun vi => Num (ToNumber s - ToNumber vi)) (values v))
  /\ (constructor (Scalar_divide (Scalar s) v) = constructor v
      /\ values (Scalar_divide (Scalar s) v)
         = map (fun vi => if strict_eq_zero vi then Num 0
                          else Num (ToNumber s / ToNumber vi)) (values v)
      /\ divide (Scalar s) v = Ok (Scalar_divide (Scalar s) v)).
Proof. destruct v; repeat split; reflexivity. Qed.

End Algebra.

(** ** [Math.radialGradientExponential] *)

Module RadialGradient.

Import HLSL.

Local Open Scope float_scope.

(** With a non-finite density the product [-0 * density] is NaN, and so is
    the result, on any host whose [Math.exp] maps NaN to NaN and whose
    [Math.pow] maps [(+0, 2)] to [+0]. *)
Lemma infinite_density_gives_nan (Math_exp : float -> float)
    (Math_pow : float -> float -> float) (radius : Renderable) :
  Math_exp nan = nan ->
  Math_pow 0 2 = 0 ->
  Math_radialGradientExponential Math_exp Math_pow
    (Vector2 (Num 0) (Num 0)) (Vector2 (Num 0) (Num 0)) radius (Scalar (Num infinity))
  = Ok (Scalar (Num nan)).
Proof.
  intros Hexp Hpow. unfold Math_radialGradientExponential, Vector2_distance.
  simpl. unfold sub, mul. simpl.
  replace (0 - 0) with 0 by reflexivity. rewrite Hpow.
  replace (- PrimFloat.sqrt (0 + 0) * infinity) with nan by reflexivity.
  rewrite Hexp. reflexivity.
Qed.

(** C9 (counterexample): at [uv = center = Vector2(0,0)] and
    [density = Scalar(Infinity)] the result is [Scalar(NaN)], not
    [Scalar(1)]; so it is at [uv = center = Vector2(Infinity,0)] with
    density 1, where [Infinity - Infinity] is NaN. *)
Lemma same_point_infinite_density_not_one :
  Math_radialGradientExponential Sample.Math_exp Sample.Math_pow
    (Vector2 (Num 0) (Num 0)) (Vector2 (Num 0) (Num 0)) (Scalar (Num 1))
    (Scalar (Num infinity))
  = Ok (Scalar (Num nan))
  /\ Math_radialGradientExponential Sample.Math_exp Sample.Math_pow
       (Vector2 (Num 0) (Num 0)) (Vector2 (Num 0) (Num 0)) (Scalar (Num 1))
       (Scalar (Num infinity))
     <> Ok (Scalar (Num 1))
  /\ Math_radialGradientExponential Sample.Math_exp Sample.Math_pow
       (Vector2 (Num infinity) (Num 0)) (Vector2 (Num infinity) (Num 0))
       (Scalar (Num 1)) (Scalar (Num 1))
     = Ok (Scalar (Num nan)).
Proof.
  assert (E : Math_radialGradientExponential Sample.Math_exp Sample.Math_pow
                (Vector2 (Num 0) (Num 0)) (Vector2 (Num 0) (Num 0)) (Scalar (Num 1))
                (Scalar (Num infinity)) = Ok (Scalar (Num nan))).
  { apply infinite_density_gives_nan; vm_compute; reflexivity. }
  split; [exact E|]. split; [|vm_compute; reflexivity].
  rewrite E. intros H.
  apply (f_equal (fun r => match r with
                           | Ok (Scalar (Num n)) => is_nan n
                           | _ => true
                           end)) in H.
  vm_compute in H. discriminate H.
Qed.

Section OnAHost.

Variable Math_exp : float -> float.
Variable Math_pow : float -> float -> float.

(** What ECMAScript fixes of the two host functions at these points. *)
Hypothesis exp_zero : Math_exp 0 = 1.
Hypothesis exp_neg_zero : Math_exp neg_zero = 1.
Hypothesis pow_zero_two : Math_pow 0 2 = 0.

(** The distance of a point with finite coordinates to itself is [+0]. *)
Lemma distance_to_itself (x y : float) :
  is_finite x = true -> is_finite y = true ->
  Vector2_distance Math_pow (Vector2 (Num x) (Num y)) (Vector2 (Num x) (Num y))
  = Ok (Scalar (Num 0)).
Proof.
  intros Hx Hy. unfold Vector2_distance. simpl. unfold sub. simpl.
  rewrite (FloatFacts.sub_diag_finite x Hx), (FloatFacts.sub_diag_finite y Hy).
  rewrite pow_zero_two. reflexivity.
Qed.

(** C9 (amended): the result is the [Scalar]
    [exp(-distance(uv, center) * density.red)]; the radius does not enter
    it; and at [uv = center], with finite coordinates and a finite
    density, it is [Scalar(1)] whatever the radius. *)
Theorem radialGradientExponential_value :
  (forall x1 y1 x2 y2 radius density,
      Math_radialGradientExponential Math_exp Math_pow
        (Vector2 x1 y1) (Vector2 x2 y2) radius (Scalar density)
      = Ok (Scalar (Num (Math_exp
            (- PrimFloat.sqrt (Math_pow (ToNumber x1 - ToNumber x2) 2
                               + Math_pow (ToNumber y1 - ToNumber y2) 2)
             * ToNumber density)))))
  /\ (forall uv center radius radius' density,
         Math_radialGradientExponential Math_exp Math_pow uv center radius density
         = Math_radialGradientExponential Math_exp Math_pow uv center radius' density)
  /\ (forall x y radius d,
         is_finite x = true -> is_finite y = true -> is_finite d = true ->
         Math_radialGradientExponential Math_exp Math_pow
           (Vector2 (Num x) (Num y)) (Vector2 (Num x) (Num y)) radius (Scalar (Num d))
         = Ok (Scalar (Num 1))).
Proof.
  repeat split.
  intros x y radius d Hx Hy Hd.
  unfold Math_radialGradientExponential.
  rewrite (distance_to_itself x y Hx Hy). simpl. unfold mul. simpl.
  change (Ok (Scalar (Num (Math_exp (neg_zero * d)))) = Ok (Scalar (Num 1))).
  destruct (FloatFacts.neg_zero_mul_finite d Hd) as [-> | ->];
    [rewrite exp_zero | rewrite exp_neg_zero]; reflexivity.
Qed.

End OnAHost.

(** The statement at the sample host, at [uv = center = (0.25, 0.5)] with
    density 2 and radius 7. *)
Lemma radialGradientExponential_value_witness :
  Math_radialGradientExponential Sample.Math_exp Sample.Math_pow
    (Vector2 (Num 0.25) (Num 0.5)) (Vector2 (Num 0.25) (Num 0.5))
    (Scalar (Num 7)) (Scalar (Num 2))
  = Ok (Scalar (Num 1)).
Proof.
  apply (proj2 (proj2 (radialGradientExponential_value
                         Sample.Math_exp Sample.Math_pow
                         eq_refl eq_refl eq_refl)));
    vm_compute; reflexivity.
Defined.

End RadialGradient.

(** ** The render pass *)

Module Raster.

Import HLSL Canvas.

Lemma template_of_renderSize : template_of_nat renderSize = "512".
Proof. vm_compute. reflexivity. Qed.

#[local] Opaque renderSize.

(** *** The pixel loop *)

Lemma fold_left_map {A B S : Type} (f : S -> B -> S) (g : A -> B) (l : list A) (s : S) :
  fold_left f (map g l) s = fold_left (fun s a => f s (g a)) l s.
Proof. revert s. induction l as [|a l IH]; intros s; simpl; [|rewrite IH]; reflexivity. Qed.

(** Two nested loops visit the cells of the rectangle, column by column. *)
Lemma nested_loops_cells {S : Type} (body : nat -> nat -> S -> S) (xs ys : list nat) (s : S) :
  fold_left (fun s x => fold_left (fun s y => body x y s) ys s) xs s
  = fold_left (fun s p => body (fst p) (snd p) s) (list_prod xs ys) s.
Proof.
  revert s. induction xs as [|x xs IH]; intros s; simpl; [reflexivity|].
  rewrite fold_left_app, fold_left_map. simpl. apply IH.
Qed.

Lemma pixel_loop_cells (f : RenferFunction) (r : raster) :
  pixel_loop f r
  = fold_left (fun r p => pixel f (fst p) (snd p) r) (rect 0 0 renderSize renderSize) r.
Proof. unfold pixel_loop, for_loop, rect. apply nested_loops_cells. Qed.

Lemma pixel_bitmap (f : RenferFunction) (x y : nat) (r : raster) :
  bitmap (context (pixel f x y r))
  = if inside (context r) (x, y)
    then <[(x, y) := paint f x y]> (bitmap (context r))
    else bitmap (context r).
Proof. reflexivity. Qed.

Lemma pixel_inside (f : RenferFunction) (x y : nat) (r : raster) (p : nat * nat) :
  inside (context (pixel f x y r)) p = inside (context r) p.
Proof. reflexivity. Qed.

(** After the cells [l] have been visited, a cell of [l] inside the bitmap
    holds what its own evaluation painted, every other pixel is as before,
    and the program has been called once per cell, in order. *)
Lemma cells_painted (f : RenferFunction) (l : list (nat * nat)) :
  forall r : raster,
    let r' := fold_left (fun r p => pixel f (fst p) (snd p) r) l r in
    canvas_width (context r') = canvas_width (context r)
    /\ canvas_height (context r') = canvas_height (context r)
    /\ invoked r' = (invoked r ++ map (fun p => texCoord_at (fst p) (snd p)) l)%list
    /\ forall p : nat * nat,
        bitmap (context r') !! p
        = if (bool_decide (p ∈ l) && inside (context r) p)%bool
          then Some (paint f (fst p) (snd p))
          else bitmap (context r) !! p.
Proof.
  induction l as [|a l IH]; intros r; simpl.
  - rewrite app_nil_r. repeat split; reflexivity.
  - destruct (IH (pixel f (fst a) (snd a) r)) as (Hw & Hh & Hi & Hb).
    repeat split.
    + rewrite Hw. reflexivity.
    + rewrite Hh. reflexivity.
    + rewrite Hi. simpl. rewrite <- app_assoc. reflexivity.
    + intros p. rewrite Hb, pixel_inside, pixel_bitmap.
      destruct a as [x y]; simpl.
      destruct (decide (p ∈ l)) as [Hl | Hl].
      * rewrite (bool_decide_eq_true_2 _ Hl).
        rewrite bool_decide_eq_true_2 by (apply elem_of_cons; right; exact Hl).
        destruct (inside (context r) p) eqn:Hp; simpl; [reflexivity|].
        destruct (inside (context r) (x, y)) eqn:Hxy; [|reflexivity].
        rewrite lookup_insert_ne; [reflexivity|].
        intros <-. rewrite Hp in Hxy. discriminate.
      * rewrite (bool_decide_eq_false_2 _ Hl). simpl.
        destruct (decide (p = (x, y))) as [-> | Hne].
        -- rewrite bool_decide_eq_true_2 by apply list_elem_of_here.
           simpl. destruct (inside (context r) (x, y)); [|reflexivity].
           apply lookup_insert_eq.
        -- rewrite bool_decide_eq_false_2.
           ++ simpl. destruct (inside (context r) (x, y)); [|reflexivity].
              rewrite lookup_insert_ne by congruence. reflexivity.
           ++ rewrite elem_of_cons. intros [? | Hin]; contradiction.
Qed.

Lemma rect_cells (n x y : nat) : (x, y) ∈ rect 0 0 n n <-> x < n /\ y < n.
Proof.
  unfold rect. rewrite list_elem_of_In, in_prod_iff, !in_seq. lia.
Qed.

(** The canvas of the component after the loop. *)
Lemma pixel_loop_painted (f : RenferFunction) (c : CanvasRenderingContext2D) :
  canvas_width c = renderSize ->
  canvas_height c = renderSize ->
  let r := pixel_loop f {| context := c; invoked := [] |} in
  canvas_width (context r) = renderSize
  /\ canvas_height (context r) = renderSize
  /\ forall x y, x < renderSize -> y < renderSize ->
                 bitmap (context r) !! (x, y) = Some (paint f x y).
Proof.
  intros Hw Hh r. subst r. rewrite pixel_loop_cells.
  destruct (cells_painted f (rect 0 0 renderSize renderSize)
              {| context := c; invoked := [] |}) as (Hw' & Hh' & _ & Hb).
  simpl in *. split; [congruence|]. split; [congruence|].
  intros x y Hx Hy. rewrite Hb.
  rewrite bool_decide_eq_true_2 by (apply rect_cells; lia).
  unfold inside. simpl. rewrite Hw, Hh.
  destruct (Nat.ltb_spec x renderSize); [|lia].
  destruct (Nat.ltb_spec y renderSize); [|lia]. reflexivity.
Qed.

(** The loop calls the program once per cell of the square. *)
Lemma pixel_loop_invoked (f : RenferFunction) (c : CanvasRenderingContext2D) :
  invoked (pixel_loop f {| context := c; invoked := [] |})
  = map (fun p => texCoord_at (fst p) (snd p)) (rect 0 0 renderSize renderSize).
Proof.
  rewrite pixel_loop_cells.
  destruct (cells_painted f (rect 0 0 renderSize renderSize)
              {| context := c; invoked := [] |}) as (_ & _ & Hi & _).
  exact Hi.
Qed.

Lemma rect_length (n : nat) : length (rect 0 0 n n) = n * n.
Proof. unfold rect. rewrite length_prod, !length_seq. reflexivity. Qed.

End Raster.

Module Pass.

Import HLSL Canvas.

#[local] Opaque renderSize.

(** What the [catch] block of the compile step logs for [err]. *)
Lemma compile_failed_lines (err : thrown) (log : Logger.Logger) :
  Logger.logs (fst (compile_failed err log))
  = app (Logger.logs log)
        ("ERROR: Shader compilation failed"
         :: match err with
            | ThrownObject {| message := Some m |} => ["ERROR: " ++ m]
            | ThrownObject {| message := None; toString := Some s |} => ["ERROR: " ++ s]
            | _ => []
            end).
Proof.
  destruct err as [[[m|] [s|]] | p]; simpl; rewrite <- ?app_assoc; reflexivity.
Qed.

(** *** Compile failure *)

(** C4 (counterexample): on a source the host rejects, the flushed log is
    not just the compile-error lines: it starts with the line
    [Compiling shader...] that is logged before the compile step. *)
Lemma compile_failure_log_has_progress_line :
  setOutput_calls (useEffect (Sample.rejecting "Unexpected token")
                             (Some Sample.blank) "function main( {")
  = [Logger.join Logger.newline
       ["Compiling shader..."; "ERROR: Shader compilation failed";
        "ERROR: Unexpected token"]]
  /\ setOutput_calls (useEffect (Sample.rejecting "Unexpected token")
                                (Some Sample.blank) "function main( {")
     <> [Logger.join Logger.newline
           ["ERROR: Shader compilation failed"; "ERROR: Unexpected token"]].
Proof. split; [reflexivity | discriminate]. Qed.

(** C4 (amended): when the compile step throws, the program is never
    called, the canvas is left as it was (not even cleared), and the
    flushed log is the line [Compiling shader...] followed by the
    compile-error lines: [ERROR: Shader compilation failed] and, when the
    thrown object has one, its message (else its string form). *)
Theorem compile_failure_aborts_pass
    (new_Function : string -> result RenferFunction)
    (canvas : HTMLCanvasElement) (context0 : CanvasRenderingContext2D)
    (code : string) (err : thrown) :
  getContext canvas = Some context0 ->
  new_Function (code ++ Logger.newline ++ "return main();") = Throw err ->
  invocations (useEffect new_Function (Some canvas) code) = []
  /\ canvas_after (useEffect new_Function (Some canvas) code) = Some canvas
  /\ setOutput_calls (useEffect new_Function (Some canvas) code)
     = [Logger.join Logger.newline
          ("Compiling shader..."
           :: "ERROR: Shader compilation failed"
           :: match err with
              | ThrownObject {| message := Some m |} => ["ERROR: " ++ m]
              | ThrownObject {| message := None; toString := Some s |} => ["ERROR: " ++ s]
              | _ => []
              end)].
Proof.
  intros Hctx Hthrow. unfold useEffect, try_block. rewrite Hctx, Hthrow.
  pose proof (compile_failed_lines err (Logger.log ["Compiling shader..."] Logger.new)) as Hl.
  destruct (compile_failed err _) as [log c]. simpl in *.
  repeat split. unfold Logger.toString. rewrite Hl. reflexivity.
Qed.

(** The statement at a host that rejects the source with a [SyntaxError]. *)
Lemma compile_failure_aborts_pass_witness :
  invocations (useEffect (Sample.rejecting "Unexpected token")
                         (Some Sample.blank) "function main( {") = []
  /\ canvas_after (useEffect (Sample.rejecting "Unexpected token")
                             (Some Sample.blank) "function main( {")
     = Some Sample.blank
  /\ setOutput_calls (useEffect (Sample.rejecting "Unexpected token")
                                (Some Sample.blank) "function main( {")
     = [Logger.join Logger.newline
          ["Compiling shader..."; "ERROR: Shader compilation failed";
           "ERROR: Unexpected token"]].
Proof.
  exact (compile_failure_aborts_pass (Sample.rejecting "Unexpected token")
           Sample.blank _ "function main( {" _ eq_refl eq_refl).
Defined.

(** *** Per-pixel fault isolation *)

(** C5: after a successful compile, on the canvas of the component, the
    program is called once per pixel of the 512 by 512 square and every
    pixel [(x, y)] of the square holds what its own evaluation gave: the
    returned style, or [#000000] when the call or [render()] threw.  So a
    throw at one pixel paints that pixel black and changes no other pixel; no
    exception leaves the pass; a program that throws at every call leaves
    every pixel black; and the flushed log ends with the line
    [Rendered 512x512 pixels]. *)
Theorem pixel_fault_isolation
    (new_Function : string -> result RenferFunction) (code : string)
    (program : RenferFunction) (style0 : string) (pixels0 : gmap (nat * nat) string) :
  new_Function (code ++ Logger.newline ++ "return main();") = Ok program ->
  exists ctx,
    canvas_after (useEffect new_Function (Some (canvas_element style0 pixels0)) code)
    = Some {| getContext := Some ctx |}
    /\ (forall x y, x < renderSize -> y < renderSize ->
                    bitmap ctx !! (x, y)
                    = Some match (let* o := program (texCoord_at x y) in render o) with
                           | Ok style => style
                           | Throw _ => "#000000"
                           end)
    /\ (forall x y e, x < renderSize -> y < renderSize ->
                      (let* o := program (texCoord_at x y) in render o) = Throw e ->
                      bitmap ctx !! (x, y) = Some "#000000")
    /\ ((forall texCoord, exists e, program texCoord = Throw e) ->
        forall x y, x < renderSize -> y < renderSize ->
                    bitmap ctx !! (x, y) = Some "#000000")
    /\ length (invocations
                 (useEffect new_Function (Some (canvas_element style0 pixels0)) code))
       = renderSize * renderSize
    /\ uncaught (useEffect new_Function (Some (canvas_element style0 pixels0)) code) = None
    /\ setOutput_calls (useEffect new_Function (Some (canvas_element style0 pixels0)) code)
       = [Logger.join Logger.newline
            ["Compiling shader..."; "Shader compiled successfully";
             "Rendered 512x512 pixels"]].
Proof.
  intros Hok. unfold useEffect, try_block, canvas_element. simpl. rewrite Hok.
  set (cleared := clearRect 0 0 renderSize renderSize _).
  destruct (Raster.pixel_loop_painted program cleared eq_refl eq_refl)
    as (Hw & Hh & Hb).
  eexists. split; [reflexivity|].
  split; [|split; [|split; [|split; [|split]]]].
  - exact Hb.
  - intros x y e Hx Hy He. rewrite (Hb x y Hx Hy). unfold paint. rewrite He. reflexivity.
  - intros Hall x y Hx Hy. rewrite (Hb x y Hx Hy). unfold paint.
    destruct (Hall (texCoord_at x y)) as [e ->]. reflexivity.
  - simpl. rewrite Raster.pixel_loop_invoked, length_map. apply Raster.rect_length.
  - reflexivity.
  - simpl. rewrite Hw, Hh, Raster.template_of_renderSize. reflexivity.
Qed.

(** The statement at a host that accepts the source as a program that
    throws at every call. *)
Lemma pixel_fault_isolation_witness :
  exists ctx,
    canvas_after (useEffect (Sample.accepting Sample.throwing) (Some Sample.blank) "")
    = Some {| getContext := Some ctx |}
    /\ (forall x y, x < renderSize -> y < renderSize ->
                    bitmap ctx !! (x, y) = Some "#000000")
    /\ setOutput_calls (useEffect (Sample.accepting Sample.throwing)
                                  (Some Sample.blank) "")
       = [Logger.join Logger.newline
            ["Compiling shader..."; "Shader compiled successfully";
             "Rendered 512x512 pixels"]].
Proof.
  destruct (pixel_fault_isolation (Sample.accepting Sample.throwing) ""
              Sample.throwing "#000000" ∅ eq_refl)
    as (ctx & Hc & _ & _ & Hall & _ & _ & Hout).
  exists ctx. split; [exact Hc|]. split; [|exact Hout].
  apply Hall. intros texCoord. eexists. reflexivity.
Defined.

(** *** The flush *)

(** C8: whatever the canvas reference, the source and the host's compile
    step, and however the [try] block ends (normally, by one of its three
    early returns, or by an exception), [setOutput] is called exactly once,
    with the lines of the log joined by newlines; with no canvas that text
    is [ERROR: No canvas], with no context [ERROR: No canvas context]. *)
Theorem log_flushed_exactly_once
    (new_Function : string -> result RenferFunction)
    (canvasRef : option HTMLCanvasElement) (code : string) :
  setOutput_calls (useEffect new_Function canvasRef code)
  = [Logger.toString
       (fst (fst (fst (try_block new_Function canvasRef code Logger.new))))]
  /\ (canvasRef = None ->
      setOutput_calls (useEffect new_Function canvasRef code) = ["ERROR: No canvas"])
  /\ (forall canvas, canvasRef = Some canvas -> getContext canvas = None ->
      setOutput_calls (useEffect new_Function canvasRef code)
      = ["ERROR: No canvas context"]).
Proof.
  unfold useEffect. repeat split.
  - destruct (try_block new_Function canvasRef code Logger.new) as [[[log canvas] calls] c].
    reflexivity.
  - intros ->. reflexivity.
  - intros canvas -> Hctx. unfold try_block. rewrite Hctx. reflexivity.
Qed.

End Pass.

(** ** More binary64 facts *)

Module FloatMore.

Local Open Scope float_scope.

(** *** Commutativity *)

Lemma SFmul_comm (prec emax : Z) (x y : spec_float) :
  SFmul prec emax x y = SFmul prec emax y x.
Proof.
  destruct x as [sx|sx| |sx mx ex], y as [sy|sy| |sy my ey]; simpl;
    rewrite ?(xorb_comm sx sy); try reflexivity.
  rewrite (Pos.mul_comm mx my), (Z.add_comm ex ey). reflexivity.
Qed.

Lemma mul_comm (a b : float) : a * b = b * a.
Proof. apply Prim2SF_inj. rewrite !FloatAxioms.mul_spec. apply SFmul_comm. Qed.

Lemma SFadd_comm (prec emax : Z) (x y : spec_float) :
  SFadd prec emax x y = SFadd prec emax y x.
Proof.
  destruct x as [sx|sx| |sx mx ex], y as [sy|sy| |sy my ey]; simpl;
    try reflexivity; try (destruct sx, sy; reflexivity).
  rewrite (Z.min_comm ey ex), Z.add_comm. reflexivity.
Qed.

Lemma add_comm (a b : float) : a + b = b + a.
Proof. apply Prim2SF_inj. rewrite !FloatAxioms.add_spec. apply SFadd_comm. Qed.

(** *** The sign of a difference *)

Lemma SFabs_binary_round_aux (prec emax : Z) (s s' : bool) (m e : Z) (l : location) :
  SFabs (binary_round_aux prec emax s m e l) = SFabs (binary_round_aux prec emax s' m e l).
Proof.
  unfold binary_round_aux.
  destruct (shr_fexp prec emax m e l) as [mrs e1].
  destruct (shr_fexp prec emax _ e1 loc_Exact) as [mrs' e2].
  destruct (shr_m mrs'); try reflexivity.
  destruct (Z.leb e2 _); reflexivity.
Qed.

Lemma SFabs_binary_normalize_opp (prec emax z e : Z) (sz sz' : bool) :
  SFabs (binary_normalize prec emax (Z.opp z) e sz)
  = SFabs (binary_normalize prec emax z e sz').
Proof.
  destruct z; simpl; try reflexivity; unfold binary_round;
    destruct (shl_align _ _ _); apply SFabs_binary_round_aux.
Qed.

Lemma SFabs_sub_comm (prec emax : Z) (x y : spec_float) :
  SFabs (SFsub prec emax x y) = SFabs (SFsub prec emax y x).
Proof.
  destruct x as [sx|sx| |sx mx ex], y as [sy|sy| |sy my ey]; simpl;
    try reflexivity; try (destruct sx, sy; reflexivity).
  rewrite (Z.min_comm ey ex).
  set (A := cond_Zopp sx _). set (B := cond_Zopp sy _).
  replace (B - A)%Z with (Z.opp (A - B))%Z by lia.
  symmetry. apply SFabs_binary_normalize_opp.
Qed.

(** [|a - b| = |b - a|], bit for bit. *)
Lemma abs_sub_comm (a b : float) : PrimFloat.abs (a - b) = PrimFloat.abs (b - a).
Proof.
  apply Prim2SF_inj. rewrite !abs_spec, !FloatAxioms.sub_spec. apply SFabs_sub_comm.
Qed.

Lemma SFmul_square_abs (prec emax : Z) (x : spec_float) :
  SFmul prec emax x x = SFmul prec emax (SFabs x) (SFabs x).
Proof. destruct x as [s|s| |s m e]; simpl; rewrite ?xorb_nilpotent; reflexivity. Qed.

(** A square depends on the absolute value only. *)
Lemma square_abs (x : float) : x * x = PrimFloat.abs x * PrimFloat.abs x.
Proof.
  apply Prim2SF_inj. rewrite !FloatAxioms.mul_spec, !abs_spec. apply SFmul_square_abs.
Qed.

Lemma square_sub_comm (a b : float) : (a - b) * (a - b) = (b - a) * (b - a).
Proof. rewrite (square_abs (a - b)), (square_abs (b - a)), (abs_sub_comm a b). reflexivity. Qed.

(** *** The order *)

Import Binary64.

Lemma SFcompare_antisym (x y : spec_float) :
  SFcompare y x = option_map CompOpp (SFcompare x y).
Proof.
  destruct x as [sx|sx| |sx mx ex], y as [sy|sy| |sy my ey]; simpl;
    try reflexivity; try (destruct sx; reflexivity); try (destruct sy; reflexivity);
    try (destruct sx, sy; reflexivity).
  destruct sx, sy; simpl; try reflexivity;
    rewrite (Z.compare_antisym ey ex); destruct (ey ?= ex)%Z; simpl; try reflexivity;
    pose proof (Pos.compare_cont_antisym mx my Eq) as H; simpl in H; rewrite <- H;
    destruct (Pos.compare_cont Eq mx my); reflexivity.
Qed.

Lemma SFcompare_refl (x : spec_float) : x <> S754_nan -> SFcompare x x = Some Eq.
Proof.
  destruct x as [s|s| |s m e]; simpl; intros H; try reflexivity; try congruence.
  - destruct s; reflexivity.
  - destruct s; rewrite Z.compare_refl, ?Pos.compare_cont_refl; reflexivity.
Qed.

Lemma SFcompare_some (x y : spec_float) :
  x <> S754_nan -> y <> S754_nan -> exists c, SFcompare x y = Some c.
Proof.
  destruct x as [sx|sx| |sx mx ex], y as [sy|sy| |sy my ey]; simpl; intros;
    try congruence; eauto.
Qed.

Lemma is_nan_Prim2SF (a : float) : is_nan a = false <-> Prim2SF a <> S754_nan.
Proof.
  unfold is_nan. rewrite FloatAxioms.eqb_spec. unfold SFeqb. split.
  - intros H E. rewrite E in H. discriminate.
  - intros H. rewrite (SFcompare_refl _ H). reflexivity.
Qed.

Lemma ltb_cmp (a b : float) :
  (a <? b) = match cmp a b with Some Lt => true | _ => false end.
Proof. rewrite FloatAxioms.ltb_spec. reflexivity. Qed.

Lemma leb_cmp (a b : float) :
  (a <=? b) = match cmp a b with Some (Lt | Eq) => true | _ => false end.
Proof. rewrite FloatAxioms.leb_spec. reflexivity. Qed.

Lemma eqb_cmp (a b : float) :
  (a =? b) = match cmp a b with Some Eq => true | _ => false end.
Proof. rewrite FloatAxioms.eqb_spec. reflexivity. Qed.

Lemma cmp_total (a b : float) :
  is_nan a = false -> is_nan b = false ->
  exists c, cmp a b = Some c /\ cmp b a = Some (CompOpp c).
Proof.
  intros Ha Hb. apply is_nan_Prim2SF in Ha, Hb.
  destruct (SFcompare_some _ _ Ha Hb) as [c Hc]. exists c. split; [exact Hc|].
  unfold cmp. rewrite SFcompare_antisym, Hc. reflexivity.
Qed.

Lemma cmp_refl (a : float) : is_nan a = false -> cmp a a = Some Eq.
Proof. intros H. apply SFcompare_refl, is_nan_Prim2SF, H. Qed.

Lemma leb_refl (a : float) : is_nan a = false -> (a <=? a) = true.
Proof. intros H. rewrite leb_cmp, (cmp_refl a H). reflexivity. Qed.

Lemma leb_not_nan (a b : float) :
  (a <=? b) = true -> is_nan a = false /\ is_nan b = false.
Proof.
  rewrite leb_cmp. unfold cmp. intros H.
  split; apply is_nan_Prim2SF; intros E; rewrite E in H; simpl in H;
    [|destruct (Prim2SF a)]; discriminate.
Qed.

Lemma ltb_not_nan (a b : float) :
  (a <? b) = true -> is_nan a = false /\ is_nan b = false.
Proof.
  intros H. apply leb_not_nan. rewrite leb_cmp. rewrite ltb_cmp in H.
  destruct (cmp a b) as [[| |]|]; try discriminate; reflexivity.
Qed.

(** [Math.max] and [Math.min] of two numbers that are not NaN pick one of
    them, the larger and the smaller. *)
Lemma Math_max_cases (a b : float) :
  is_nan a = false -> is_nan b = false ->
  (Math_max a b = a /\ (b <=? a) = true) \/ (Math_max a b = b /\ (a <=? b) = true).
Proof.
  intros Ha Hb. unfold Math_max. rewrite Ha, Hb. simpl.
  destruct (cmp_total a b Ha Hb) as (c & H1 & H2).
  rewrite !ltb_cmp, !leb_cmp, H1, H2.
  destruct c; simpl; auto. destruct (get_sign a); auto.
Qed.

Lemma Math_min_cases (a b : float) :
  is_nan a = false -> is_nan b = false ->
  (Math_min a b = a /\ (a <=? b) = true) \/ (Math_min a b = b /\ (b <=? a) = true).
Proof.
  intros Ha Hb. unfold Math_min. rewrite Ha, Hb. simpl.
  destruct (cmp_total a b Ha Hb) as (c & H1 & H2).
  rewrite !ltb_cmp, !leb_cmp, H1, H2.
  destruct c; simpl; auto. destruct (get_sign a); auto.
Qed.

Lemma clamp_bounds (x mn mx : float) :
  is_nan x = false -> (mn <=? mx) = true ->
  (mn <=? Math_min (Math_max x mn) mx) = true
  /\ (Math_min (Math_max x mn) mx <=? mx) = true.
Proof.
  intros Hx Hle. destruct (leb_not_nan _ _ Hle) as [Hmn Hmx].
  destruct (Math_max_cases x mn Hx Hmn) as [[-> H1] | [-> H1]].
  - destruct (Math_min_cases x mx Hx Hmx) as [[-> H2] | [-> H2]]; auto using leb_refl.
  - destruct (Math_min_cases mn mx Hmn Hmx) as [[-> H2] | [-> H2]]; auto using leb_refl.
Qed.

End FloatMore.

(** ** Vector arithmetic and geometry *)

Module Vectors.

Import HLSL Geometry.

Local Open Scope float_scope.

(** X1: the four arithmetic methods of [Vector2] throw exactly when the
    operand is a [Vector3]; a [Vector2] operand is combined component by
    component, and a [Scalar] operand is broadcast: both components are
    combined with its single value. *)
Theorem Vector2_arithmetic (x y : jsval) (other : Renderable) :
  match other with
  | Scalar s =>
      Vector2_multiply (Vector2 x y) other = Ok (Vector2 (Num (mul x s)) (Num (mul y s)))
      /\ Vector2_add (Vector2 x y) other = Ok (Vector2 (Num (JS.add x s)) (Num (JS.add y s)))
      /\ Vector2_subtract (Vector2 x y) other = Ok (Vector2 (Num (sub x s)) (Num (sub y s)))
      /\ Vector2_divide (Vector2 x y) other = Ok (Vector2 (Num (div x s)) (Num (div y s)))
  | Vector2 r g =>
      Vector2_multiply (Vector2 x y) other = Ok (Vector2 (Num (mul x r)) (Num (mul y g)))
      /\ Vector2_add (Vector2 x y) other = Ok (Vector2 (Num (JS.add x r)) (Num (JS.add y g)))
      /\ Vector2_subtract (Vector2 x y) other = Ok (Vector2 (Num (sub x r)) (Num (sub y g)))
      /\ Vector2_divide (Vector2 x y) other = Ok (Vector2 (Num (div x r)) (Num (div y g)))
  | Vector3 _ _ _ =>
      Vector2_multiply (Vector2 x y) other
        = Throw (Error "Invalid arguments for Vector2.multiply")
      /\ Vector2_add (Vector2 x y) other = Throw (Error "Invalid arguments for Vector2.add")
      /\ Vector2_subtract (Vector2 x y) other
         = Throw (Error "Invalid arguments for Vector2.subtract")
      /\ Vector2_divide (Vector2 x y) other
         = Throw (Error "Invalid arguments for Vector2.divide")
  end.
Proof. destruct other; repeat split; reflexivity. Qed.

(** X2: the four arithmetic methods of [Vector3] throw exactly when the
    operand is a [Vector2]; a [Vector3] operand is combined component by
    component, and a [Scalar] operand is broadcast to the three components. *)
Theorem Vector3_arithmetic (x y z : jsval) (other : Renderable) :
  match other with
  | Scalar s =>
      Vector3_multiply (Vector3 x y z) other
        = Ok (Vector3 (Num (mul x s)) (Num (mul y s)) (Num (mul z s)))
      /\ Vector3_add (Vector3 x y z) other
         = Ok (Vector3 (Num (JS.add x s)) (Num (JS.add y s)) (Num (JS.add z s)))
      /\ Vector3_subtract (Vector3 x y z) other
         = Ok (Vector3 (Num (sub x s)) (Num (sub y s)) (Num (sub z s)))
      /\ Vector3_divide (Vector3 x y z) other
         = Ok (Vector3 (Num (div x s)) (Num (div y s)) (Num (div z s)))
  | Vector3 r g b =>
      Vector3_multiply (Vector3 x y z) other
        = Ok (Vector3 (Num (mul x r)) (Num (mul y g)) (Num (mul z b)))
      /\ Vector3_add (Vector3 x y z) other
         = Ok (Vector3 (Num (JS.add x r)) (Num (JS.add y g)) (Num (JS.add z b)))
      /\ Vector3_subtract (Vector3 x y z) other
         = Ok (Vector3 (Num (sub x r)) (Num (sub y g)) (Num (sub z b)))
      /\ Vector3_divide (Vector3 x y z) other
         = Ok (Vector3 (Num (div x r)) (Num (div y g)) (Num (div z b)))
  | Vector2 _ _ =>
      Vector3_multiply (Vector3 x y z) other
        = Throw (Error "Invalid arguments for Vector3.multiply")
      /\ Vector3_add (Vector3 x y z) other = Throw (Error "Invalid arguments for Vector3.add")
      /\ Vector3_subtract (Vector3 x y z) other
         = Throw (Error "Invalid arguments for Vector3.subtract")
      /\ Vector3_divide (Vector3 x y z) other
         = Throw (Error "Invalid arguments for Vector3.divide")
  end.
Proof. destruct other; repeat split; reflexivity. Qed.

(** X3: multiplying or adding a [Scalar] and any value gives the same
    result, bit for bit, whichever of the two is the receiver:
    [s.multiply(v)] is [v.multiply(s)] and [s.add(v)] is [v.add(s)]. *)
Theorem scalar_broadcast_commutes (s : jsval) (v : Renderable) :
  multiply (Scalar s) v = multiply v (Scalar s)
  /\ Geometry.add (Scalar s) v = Geometry.add v (Scalar s).
Proof.
  destruct v as [t | r g | r g b]; split; cbn;
    unfold mul, JS.add;
    rewrite ?(FloatMore.mul_comm (ToNumber s)), ?(FloatMore.add_comm (ToNumber s));
    reflexivity.
Qed.

(** X4: the dot products are symmetric, bit for bit. *)
Theorem dot_symmetric (a b : Renderable) :
  Vector2_dot a b = Vector2_dot b a /\ Vector3_dot a b = Vector3_dot b a.
Proof.
  split.
  - unfold Vector2_dot. cbn.
    destruct (green a) as [ga|] eqn:Ea, (green b) as [gb|] eqn:Eb; cbn;
      try (destruct a, b; discriminate).
    unfold mul.
    rewrite (FloatMore.mul_comm (ToNumber (index (values a) 0))),
            (FloatMore.mul_comm (ToNumber ga)).
    reflexivity.
  - unfold Vector3_dot. cbn.
    destruct (green a) as [ga|] eqn:Ea, (green b) as [gb|] eqn:Eb; cbn;
      try (destruct a, b; discriminate).
    destruct (blue a) as [ba|] eqn:Fa, (blue b) as [bb|] eqn:Fb; cbn;
      try (destruct a, b; discriminate).
    unfold mul.
    rewrite (FloatMore.mul_comm (ToNumber (index (values a) 0))),
            (FloatMore.mul_comm (ToNumber ga)), (FloatMore.mul_comm (ToNumber ba)).
    reflexivity.
Qed.

(** X5: the distance between two [Vector3] values is symmetric, bit for
    bit. *)
Theorem Vector3_distance_symmetric (x y z x' y' z' : jsval) :
  Vector3_distance (Vector3 x y z) (Vector3 x' y' z')
  = Vector3_distance (Vector3 x' y' z') (Vector3 x y z).
Proof.
  cbn. unfold mul, sub. cbn.
  rewrite (FloatMore.square_sub_comm (ToNumber x)),
          (FloatMore.square_sub_comm (ToNumber y)),
          (FloatMore.square_sub_comm (ToNumber z)).
  reflexivity.
Qed.



End Vectors.

(** ** [Math.lerp] and [Math.clamp] *)

Module LerpClamp.

Import HLSL Geometry.

Local Open Scope float_scope.

(** *** Zeros in sums and products *)

Lemma finite_mul_zero (d z : float) (s : bool) :
  is_finite d = true -> Prim2SF z = S754_zero s ->
  exists s', Prim2SF (d * z) = S754_zero s'.
Proof.
  intros Hd Hz. rewrite FloatAxioms.mul_spec, Hz.
  destruct (FloatFacts.finite_cases d Hd) as [[sd ->] | (sd & m & e & ->)];
    eexists; reflexivity.
Qed.

Lemma finite_add_zero (a z : float) (s : bool) :
  is_finite a = true -> Prim2SF z = S754_zero s -> (a + z =? a) = true.
Proof.
  intros Ha Hz. rewrite FloatMore.eqb_cmp. unfold Binary64.cmp.
  rewrite FloatAxioms.add_spec, Hz.
  destruct (FloatFacts.finite_cases a Ha) as [[sa ->] | (sa & m & e & ->)].
  - destruct sa, s; reflexivity.
  - apply (f_equal (fun c => match c with Some Eq => true | _ => false end)
                   (FloatMore.SFcompare_refl (S754_finite sa m e) ltac:(discriminate))).
Qed.

(** [lerp(a, a, t) == a] for finite [a] and [t]. *)
Lemma lerp_number_same (a t : float) :
  is_finite a = true -> is_finite t = true -> (lerp_number a a t =? a) = true.
Proof.
  intros Ha Ht. unfold lerp_number. rewrite (FloatFacts.sub_diag_finite a Ha).
  rewrite FloatMore.mul_comm.
  destruct (finite_mul_zero t 0 false Ht eq_refl) as [s Hs].
  exact (finite_add_zero a _ s Ha Hs).
Qed.

(** X7: on numbers, [Math.lerp(a, a, t)] is equal ([==]) to [a] for finite
    [a] and [t], and [Math.lerp(a, b, 0)] is equal to [a] for finite [a]
    whenever the difference [b - a] does not overflow. *)
Theorem Math_lerp_number_fixed_points (a b t : float) :
  is_finite a = true -> is_finite t = true -> is_finite (b - a) = true ->
  (exists r, Math_lerp (Prim (Num a)) (Prim (Num a)) t = Ok (Prim (Num r))
             /\ (r =? a) = true)
  /\ (exists r, Math_lerp (Prim (Num a)) (Prim (Num b)) 0 = Ok (Prim (Num r))
                /\ (r =? a) = true).
Proof.
  intros Ha Ht Hd. split; eexists; (split; [reflexivity|]).
  - exact (lerp_number_same a t Ha Ht).
  - unfold lerp_number.
    destruct (finite_mul_zero (b - a) 0 false Hd eq_refl) as [s Hs].
    exact (finite_add_zero a _ s Ha Hs).
Qed.

Lemma Math_lerp_number_fixed_points_witness :
  (exists r, Math_lerp (Prim (Num 0.25)) (Prim (Num 0.25)) 0.75 = Ok (Prim (Num r))
             /\ (r =? 0.25) = true)
  /\ (exists r, Math_lerp (Prim (Num 0.25)) (Prim (Num 3)) 0 = Ok (Prim (Num r))
                /\ (r =? 0.25) = true).
Proof.
  apply (Math_lerp_number_fixed_points 0.25 3 0.75); vm_compute; reflexivity.
Defined.

(** X8: lerping a value with finite components toward itself returns a
    value of the same class whose components are equal ([===]) to the
    original ones, for every finite [t]. *)
Theorem Math_lerp_same_value (v : Renderable) (t : float) :
  finite_components v = true -> is_finite t = true ->
  exists r, Math_lerp (Obj v) (Obj v) t = Ok (Obj r)
            /\ constructor r = constructor v
            /\ same_components r v = true.
Proof.
  intros Hv Ht.
  destruct v as [[x|] | [x|] [y|] | [x|] [y|] [z|]]; cbn in Hv;
    repeat match goal with
           | H : (_ && _)%bool = true |- _ => apply andb_prop in H; destruct H
           end;
    try discriminate;
    eexists; (split; [reflexivity|]); (split; [reflexivity|]); cbn;
    repeat match goal with
           | Hf : is_finite ?a = true |- context [(?a + (?a - ?a) * t =? ?a)] =>
               rewrite (lerp_number_same a t Hf Ht : (a + (a - a) * t =? a) = true)
           end; reflexivity.
Qed.

Lemma Math_lerp_same_value_witness :
  exists r, Math_lerp (Obj Vector3_purple) (Obj Vector3_purple) 0.25 = Ok (Obj r)
            /\ constructor r = CVector3
            /\ same_components r Vector3_purple = true.
Proof.
  apply (Math_lerp_same_value Vector3_purple 0.25); vm_compute; reflexivity.
Defined.

(** X9: [Math.lerp] never throws on two [Renderable]s, whatever their
    classes and components, and the result has the larger of the two
    dimensions; on a number and a [Renderable], in either order, it throws
    [Invalid arguments for Math.lerp]. *)
Theorem Math_lerp_dispatch (a b : Renderable) (x : jsval) (t : float) :
  (exists r, Math_lerp (Obj a) (Obj b) t = Ok (Obj r)
             /\ dimensions r = Nat.max (dimensions a) (dimensions b))
  /\ Math_lerp (Prim x) (Obj b) t = Throw (Error "Invalid arguments for Math.lerp")
  /\ Math_lerp (Obj a) (Prim x) t = Throw (Error "Invalid arguments for Math.lerp").
Proof.
  split; [|split; [destruct x|]; reflexivity].
  destruct a as [sa | ra ga | ra ga ba]; destruct b as [sb | rb gb | rb gb bb];
    repeat match goal with v : jsval |- _ => destruct v end;
    eexists; split; reflexivity.
Qed.

(** The statement of [Math_lerp_first_not_narrower] at a [Vector3] lerped
    toward a [Scalar]. *)
Lemma Math_lerp_first_not_narrower_witness :
  exists r,
    Math_lerp (Obj Vector3_purple) (Obj Scalar_one) 0.5 = Ok (Obj r)
    /\ dimensions r = 3%nat
    /\ values r = map (fun i => Num (lerp_number (filled (index (values Vector3_purple) i))
                                                 (filled (index (values Scalar_one) i)) 0.5))
                      (seq 0 3).
Proof.
  apply (Algebra.Math_lerp_first_not_narrower Vector3_purple Scalar_one 0.5).
  vm_compute. lia.
Defined.

(** *** [Math.clamp] *)



(** X11: on three [Renderable]s whose components are numbers, [Math.clamp]
    succeeds exactly when [max] has at least as many components as [x]
    (otherwise it throws [Invalid arguments for Math.clamp]), whatever the
    dimension of [min]. *)
Theorem Math_clamp_succeeds_iff (x mn mx : Renderable) :
  numeric x = true -> numeric mn = true -> numeric mx = true ->
  ((exists r, Math_clamp (Obj x) (Obj mn) (Obj mx) = Ok (Obj r))
   <-> (dimensions x <= dimensions mx)%nat)
  /\ ((dimensions mx < dimensions x)%nat ->
      Math_clamp (Obj x) (Obj mn) (Obj mx)
      = Throw (Error "Invalid arguments for Math.clamp")).
Proof.
  intros Hx Hmn Hmx.
  destruct x as [[x|] | [x|] [y|] | [x|] [y|] [z|]]; try discriminate Hx;
    destruct mn as [[a|] | [a|] [b|] | [a|] [b|] [c|]]; try discriminate Hmn;
    destruct mx as [[p|] | [p|] [q|] | [p|] [q|] [u|]]; try discriminate Hmx;
    cbn; (split; [split; [intros [r H]; try discriminate H; lia
                         | intros H; try lia; eexists; reflexivity]
                 | intros H; try lia; reflexivity]).
Qed.

Lemma Math_clamp_succeeds_iff_witness :
  ((exists r, Math_clamp (Obj Vector3_purple) (Obj Scalar_zero) (Obj Vector3_white) = Ok (Obj r))
   <-> (3 <= 3)%nat)
  /\ ((3 < 3)%nat ->
      Math_clamp (Obj Vector3_purple) (Obj Scalar_zero) (Obj Vector3_white)
      = Throw (Error "Invalid arguments for Math.clamp")).
Proof.
  apply (Math_clamp_succeeds_iff Vector3_purple Scalar_zero Vector3_white); reflexivity.
Defined.

(** X12: on three values of the same dimension with [min_i <= max_i] in
    every component and no NaN in [x], [Math.clamp] returns a value of [x]'s
    dimension whose every component lies between the corresponding
    components of [min] and [max]. *)
Theorem Math_clamp_componentwise_bounds (x mn mx : Renderable) :
  dimensions x = dimensions mn -> no_NaN x = true -> components_le mn mx = true ->
  exists r, Math_clamp (Obj x) (Obj mn) (Obj mx) = Ok (Obj r)
            /\ dimensions r = dimensions x
            /\ components_le mn r = true /\ components_le r mx = true.
Proof.
  intros Hd Hx Hle.
  destruct x as [[x|] | [x|] [y|] | [x|] [y|] [z|]]; try discriminate Hx;
    destruct mn as [[a|] | [a|] [b|] | [a|] [b|] [c|]]; try discriminate Hd;
    destruct mx as [[p|] | [p|] [q|] | [p|] [q|] [u|]]; try discriminate Hle;
    cbn in Hx, Hle; clear Hd;
    repeat match goal with
           | H : (_ && _)%bool = true |- _ => apply andb_prop in H; destruct H
           | H : negb _ = true |- _ => apply negb_true_iff in H
           end;
    try congruence.
  - destruct (FloatMore.clamp_bounds x a p) as [X1 X2]; [assumption..|].
    eexists. repeat (split; [reflexivity|]). cbn -[Math_min Math_max].
    rewrite X1, X2. split; reflexivity.
  - destruct (FloatMore.clamp_bounds x a p) as [X1 X2]; [assumption..|].
    destruct (FloatMore.clamp_bounds y b q) as [Y1 Y2]; [assumption..|].
    eexists. repeat (split; [reflexivity|]). cbn -[Math_min Math_max].
    rewrite X1, X2, Y1, Y2. split; reflexivity.
  - destruct (FloatMore.clamp_bounds x a p) as [X1 X2]; [assumption..|].
    destruct (FloatMore.clamp_bounds y b q) as [Y1 Y2]; [assumption..|].
    destruct (FloatMore.clamp_bounds z c u) as [Z1 Z2]; [assumption..|].
    eexists. repeat (split; [reflexivity|]). cbn -[Math_min Math_max].
    rewrite X1, X2, Y1, Y2, Z1, Z2. split; reflexivity.
Qed.

Lemma Math_clamp_componentwise_bounds_witness :
  exists r, Math_clamp (Obj (Vector2 (Num 2) (Num (-3)))) (Obj (Vector2 (Num 0) (Num 0)))
                       (Obj (Vector2 (Num 1) (Num 1))) = Ok (Obj r)
            /\ dimensions r = 2%nat
            /\ components_le (Vector2 (Num 0) (Num 0)) r = true
            /\ components_le r (Vector2 (Num 1) (Num 1)) = true.
Proof.
  apply (Math_clamp_componentwise_bounds (Vector2 (Num 2) (Num (-3))) (Vector2 (Num 0) (Num 0))
           (Vector2 (Num 1) (Num 1))); vm_compute; reflexivity.
Defined.

End LerpClamp.

(** ** [Math.inverseLerp], [Math.nearlyEqual], [Scalar.distance] *)

Module InverseLerp.

Import HLSL Geometry Blend.

Local Open Scope float_scope.

(** *** Numbers that are not finite *)

Lemma not_finite_cases (x : float) :
  is_finite x = false <->
  Prim2SF x = S754_nan \/ exists s, Prim2SF x = S754_infinity s.
Proof.
  split.
  - intros H. destruct (Prim2SF x) as [s|s| |s m e] eqn:E; eauto; exfalso.
    + rewrite <- (SF2Prim_Prim2SF x), E in H. destruct s; discriminate H.
    + revert E H. unfold is_finite, Prim2SF.
      destruct (is_nan x); [discriminate|].
      destruct (PrimFloat.is_zero x); [discriminate|].
      destruct (is_infinity x); [discriminate|]. discriminate.
  - intros [E | [s E]]; rewrite <- (SF2Prim_Prim2SF x), E; [|destruct s]; reflexivity.
Qed.

Lemma div_by_zero_not_finite (x : float) : is_finite (x / 0) = false.
Proof.
  apply not_finite_cases. rewrite FloatAxioms.div_spec.
  change (Prim2SF 0) with (S754_zero false).
  destruct (Prim2SF x) as [s|s| |s m e]; simpl; eauto.
Qed.

Lemma add_not_finite_l (a b : float) : is_finite a = false -> is_finite (a + b) = false.
Proof.
  rewrite !not_finite_cases, FloatAxioms.add_spec.
  intros [-> | [s ->]]; destruct (Prim2SF b) as [sb|sb| |sb m e]; simpl; eauto.
  destruct s, sb; eauto.
Qed.

Lemma add_not_finite_r (a b : float) : is_finite b = false -> is_finite (a + b) = false.
Proof. rewrite FloatMore.add_comm. apply add_not_finite_l. Qed.

Lemma div_not_finite_l (a b : float) : is_finite a = false -> is_finite (a / b) = false.
Proof.
  rewrite !not_finite_cases, FloatAxioms.div_spec.
  intros [-> | [s ->]]; destruct (Prim2SF b) as [sb|sb| |sb m e]; simpl; eauto.
Qed.

(** X13: on three numbers [Math.inverseLerp] is [(v - a) / (b - a)]; on
    three [Renderable]s whose components are numbers it returns a number
    (it never throws); on any mix of numbers and [Renderable]s it throws
    [Invalid arguments for Math.inverseLerp]. *)
Theorem Math_inverseLerp_dispatch (a b v : Renderable) (x y z : float) (p : operand) :
  numeric a = true -> numeric b = true -> numeric v = true ->
  Math_inverseLerp (Prim (Num x)) (Prim (Num y)) (Prim (Num z)) = Ok ((z - x) / (y - x))
  /\ (exists r, Math_inverseLerp (Obj a) (Obj b) (Obj v) = Ok r)
  /\ Math_inverseLerp (Prim (Num x)) (Obj b) p
     = Throw (Error "Invalid arguments for Math.inverseLerp")
  /\ Math_inverseLerp (Obj a) (Prim (Num y)) p
     = Throw (Error "Invalid arguments for Math.inverseLerp")
  /\ Math_inverseLerp (Obj a) (Obj b) (Prim (Num z))
     = Throw (Error "Invalid arguments for Math.inverseLerp")
  /\ Math_inverseLerp (Prim (Num x)) (Prim (Num y)) (Obj v)
     = Throw (Error "Invalid arguments for Math.inverseLerp").
Proof.
  intros Ha Hb Hv. split; [reflexivity|]. split.
  - destruct a as [[?|] | [?|] [?|] | [?|] [?|] [?|]]; try discriminate Ha;
      destruct b as [[?|] | [?|] [?|] | [?|] [?|] [?|]]; try discriminate Hb;
      destruct v as [[?|] | [?|] [?|] | [?|] [?|] [?|]]; try discriminate Hv;
      eexists; reflexivity.
  - repeat split; try reflexivity; destruct p as [[?|]|?]; reflexivity.
Qed.

Lemma Math_inverseLerp_dispatch_witness :
  Math_inverseLerp (Prim (Num 1)) (Prim (Num 3)) (Prim (Num 2)) = Ok ((2 - 1) / (3 - 1))
  /\ (exists r, Math_inverseLerp (Obj Vector3_black) (Obj Vector3_white) (Obj Vector3_purple)
                = Ok r)
  /\ Math_inverseLerp (Prim (Num 1)) (Obj Vector3_white) (Prim (Num 2))
     = Throw (Error "Invalid arguments for Math.inverseLerp")
  /\ Math_inverseLerp (Obj Vector3_black) (Prim (Num 3)) (Prim (Num 2))
     = Throw (Error "Invalid arguments for Math.inverseLerp")
  /\ Math_inverseLerp (Obj Vector3_black) (Obj Vector3_white) (Prim (Num 2))
     = Throw (Error "Invalid arguments for Math.inverseLerp")
  /\ Math_inverseLerp (Prim (Num 1)) (Prim (Num 3)) (Obj Vector3_purple)
     = Throw (Error "Invalid arguments for Math.inverseLerp").
Proof.
  apply (Math_inverseLerp_dispatch Vector3_black Vector3_white Vector3_purple 1 3 2
           (Prim (Num 2))); reflexivity.
Defined.

(** X14: with two [Vector2] end points and a [Vector3] value, the blue
    channel of both end points is the default 0, its term is a division by
    [0 - 0], and the result of [Math.inverseLerp] is never a finite number,
    whatever the components. *)
Theorem Math_inverseLerp_Vector2_ends_Vector3_value (ar ag br bg vr vg vb : float) :
  exists r,
    Math_inverseLerp (Obj (Vector2 (Num ar) (Num ag))) (Obj (Vector2 (Num br) (Num bg)))
                     (Obj (Vector3 (Num vr) (Num vg) (Num vb))) = Ok r
    /\ is_finite r = false.
Proof.
  eexists. split; [reflexivity|].
  apply div_not_finite_l. unfold inverseLerp_number.
  do 2 apply add_not_finite_l. apply add_not_finite_r.
  change (0 - 0) with 0. apply div_by_zero_not_finite.
Qed.

(** *** The round trip at the first end point *)

Lemma zero_is_zero (z : float) (s : bool) :
  Prim2SF z = S754_zero s -> PrimFloat.is_zero z = true.
Proof.
  intros H. unfold PrimFloat.is_zero. rewrite FloatMore.eqb_cmp. unfold Binary64.cmp.
  rewrite H. reflexivity.
Qed.

Lemma finite_nonzero (d : float) :
  is_finite d = true -> PrimFloat.is_zero d = false ->
  exists s m e, Prim2SF d = S754_finite s m e.
Proof.
  intros Hd Hz. destruct (FloatFacts.finite_cases d Hd) as [[s E] | H]; [|exact H].
  rewrite (zero_is_zero d s E) in Hz. discriminate Hz.
Qed.

Lemma add_zero_sub (a z : float) (s : bool) :
  is_finite a = true -> Prim2SF z = S754_zero s ->
  exists s', Prim2SF ((a + z) - a) = S754_zero s'.
Proof.
  intros Ha Hz.
  destruct (FloatFacts.finite_cases a Ha) as [[sa E] | (sa & m & e & E)].
  - rewrite FloatAxioms.sub_spec, FloatAxioms.add_spec, Hz, E.
    destruct sa, s; eexists; reflexivity.
  - assert (Hs : a + z = a).
    { apply Prim2SF_inj. rewrite FloatAxioms.add_spec, Hz, E. reflexivity. }
    rewrite Hs, (FloatFacts.sub_diag_finite a Ha). exists false. reflexivity.
Qed.

(** X15: the round trip at the first end point: for finite [a], and [b]
    with a finite non-zero difference [b - a],
    [Math.inverseLerp(a, b, Math.lerp(a, b, 0))] is a zero. *)
Theorem inverseLerp_lerp_at_zero (a b : float) :
  is_finite a = true -> is_finite (b - a) = true -> PrimFloat.is_zero (b - a) = false ->
  exists r t,
    Math_lerp (Prim (Num a)) (Prim (Num b)) 0 = Ok (Prim (Num r))
    /\ Math_inverseLerp (Prim (Num a)) (Prim (Num b)) (Prim (Num r)) = Ok t
    /\ (t =? 0) = true.
Proof.
  intros Ha Hd Hnz. do 2 eexists. split; [reflexivity|]. split; [reflexivity|].
  unfold inverseLerp_number, lerp_number.
  destruct (LerpClamp.finite_mul_zero (b - a) 0 false Hd eq_refl) as [s Hs].
  destruct (add_zero_sub a _ s Ha Hs) as [s' Hn].
  destruct (finite_nonzero (b - a) Hd Hnz) as (sd & m & e & Hden).
  apply (zero_is_zero _ (xorb s' sd)).
  rewrite FloatAxioms.div_spec, Hn, Hden. reflexivity.
Qed.

Lemma inverseLerp_lerp_at_zero_witness :
  exists r t,
    Math_lerp (Prim (Num 0.25)) (Prim (Num 3)) 0 = Ok (Prim (Num r))
    /\ Math_inverseLerp (Prim (Num 0.25)) (Prim (Num 3)) (Prim (Num r)) = Ok t
    /\ (t =? 0) = true.
Proof.
  apply (inverseLerp_lerp_at_zero 0.25 3); vm_compute; reflexivity.
Defined.

(** *** [Math.nearlyEqual] and [Scalar.distance] *)





(** X17: [Scalar.distance] is symmetric, bit for bit, and the distance of a
    finite [Scalar] to itself is 0. *)
Theorem Scalar_distance_properties (a b : jsval) (x : float) :
  is_finite x = true ->
  Scalar_distance (Scalar a) (Scalar b) = Scalar_distance (Scalar b) (Scalar a)
  /\ Scalar_distance (Scalar (Num x)) (Scalar (Num x)) = Scalar (Num 0).
Proof.
  intros Hx. unfold Scalar_distance, sub. cbn. split.
  - rewrite (FloatMore.abs_sub_comm (ToNumber a)). reflexivity.
  - rewrite (FloatFacts.sub_diag_finite x Hx). reflexivity.
Qed.

Lemma Scalar_distance_properties_witness :
  Scalar_distance (Scalar (Num 1)) (Scalar (Num 3))
  = Scalar_distance (Scalar (Num 3)) (Scalar (Num 1))
  /\ Scalar_distance (Scalar (Num 2)) (Scalar (Num 2)) = Scalar (Num 0).
Proof.
  apply (Scalar_distance_properties (Num 1) (Num 3) 2). reflexivity.
Defined.

End InverseLerp.

(** ** [Renderable.render] *)

Module Rendering.

Import HLSL Geometry Blend.

Local Open Scope float_scope.

Section OnAHost.

Variable Number_toString : float -> string.

(** X18: [render] throws, with the error of [Math.clamp], exactly when a
    stored component is not a number; otherwise it returns a string of the
    form [rgb(r, g, b)]. *)
Theorem render_throws_iff_not_numeric (v : Renderable) :
  if numeric v
  then exists r g b,
      render Number_toString v
      = Ok ("rgb(" ++ Number_toString r ++ ", " ++ Number_toString g ++ ", "
              ++ Number_toString b ++ ")")
  else render Number_toString v = Throw (Error "Invalid arguments for Math.clamp").
Proof.
  destruct v as [[x|] | [x|] [y|] | [x|] [y|] [z|]]; cbn -[Math_min Math_max];
    try reflexivity; do 3 eexists; reflexivity.
Qed.

(** X19: lerping toward a wider operand gives a value that cannot be
    rendered: whenever [b] has more components than [a], [Math.lerp(a, b, t)]
    returns a value on which [render] throws. *)
Theorem lerp_toward_wider_cannot_render (a b : Renderable) (t : float) :
  (dimensions a < dimensions b)%nat ->
  exists r, Math_lerp (Obj a) (Obj b) t = Ok (Obj r)
            /\ render Number_toString r
               = Throw (Error "Invalid arguments for Math.clamp").
Proof.
  intros Hd.
  destruct a as [sa | ra ga | ra ga ba]; destruct b as [sb | rb gb | rb gb bb];
    cbn in Hd; try lia;
    repeat match goal with v : jsval |- _ => destruct v end;
    eexists; split; reflexivity.
Qed.

(** X20: for a value whose components are numbers other than NaN, each of
    the three numbers in the rendered string is a factor between 0 and 1
    times 255; on a [Scalar] the three are the same (a gray), and on a
    [Vector2] the third is 0. *)
Theorem render_channels_clamped (v : Renderable) :
  no_NaN v = true ->
  exists kr kg kb,
    render Number_toString v
    = Ok ("rgb(" ++ Number_toString (kr * 255) ++ ", " ++ Number_toString (kg * 255)
            ++ ", " ++ Number_toString (kb * 255) ++ ")")
    /\ ((0 <=? kr) && (kr <=? 1) && (0 <=? kg) && (kg <=? 1)
        && (0 <=? kb) && (kb <=? 1))%bool = true
    /\ match v with
       | Scalar _ => kr = kg /\ kg = kb
       | Vector2 _ _ => kb = 0
       | Vector3 _ _ _ => True
       end.
Proof.
  intros Hv.
  destruct v as [[x|] | [x|] [y|] | [x|] [y|] [z|]];
    cbn in Hv;
    repeat match goal with
           | H : (_ && _)%bool = true |- _ => apply andb_prop in H; destruct H
           | H : negb _ = true |- _ => apply negb_true_iff in H
           end;
    try congruence.
  - destruct (FloatMore.clamp_bounds x 0 1) as [X1 X2]; [assumption | reflexivity |].
    do 3 eexists. split; [reflexivity|]. cbn -[Math_min Math_max].
    rewrite X1, X2. repeat split; reflexivity.
  - destruct (FloatMore.clamp_bounds x 0 1) as [X1 X2]; [assumption | reflexivity |].
    destruct (FloatMore.clamp_bounds y 0 1) as [Y1 Y2]; [assumption | reflexivity |].
    do 3 eexists. split; [reflexivity|]. cbn -[Math_min Math_max].
    rewrite X1, X2, Y1, Y2. repeat split; reflexivity.
  - destruct (FloatMore.clamp_bounds x 0 1) as [X1 X2]; [assumption | reflexivity |].
    destruct (FloatMore.clamp_bounds y 0 1) as [Y1 Y2]; [assumption | reflexivity |].
    destruct (FloatMore.clamp_bounds z 0 1) as [Z1 Z2]; [assumption | reflexivity |].
    do 3 eexists. split; [reflexivity|]. cbn -[Math_min Math_max].
    rewrite X1, X2, Y1, Y2, Z1, Z2. repeat split; reflexivity.
Qed.

(** X21: a program whose [main] returns the same value at every pixel
    paints every pixel of the square with that value's rendered string, or
    with [#000000] when its [render] throws. *)
Theorem constant_program_uniform_image
    (new_Function : string -> result Canvas.RenferFunction) (code : string)
    (c : Renderable) (style0 : string) (pixels0 : gmap (nat * nat) string) :
  new_Function (code ++ Logger.newline ++ "return main();")
  = Ok (program_of Number_toString (fun _ => Ok c)) ->
  exists ctx,
    Canvas.canvas_after
      (Canvas.useEffect new_Function (Some (Canvas.canvas_element style0 pixels0)) code)
    = Some {| Canvas.getContext := Some ctx |}
    /\ forall x y, (x < Canvas.renderSize)%nat -> (y < Canvas.renderSize)%nat ->
                   Canvas.bitmap ctx !! (x, y)
                   = Some match render Number_toString c with
                          | Ok style => style
                          | Throw _ => "#000000"
                          end.
Proof.
  intros Hok. unfold Canvas.useEffect, Canvas.try_block, Canvas.canvas_element.
  cbn [Canvas.getContext]. rewrite Hok.
  set (cleared := Canvas.clearRect 0 0 Canvas.renderSize Canvas.renderSize _).
  destruct (Raster.pixel_loop_painted (program_of Number_toString (fun _ => Ok c))
              cleared eq_refl eq_refl) as (_ & _ & Hb).
  eexists. split; [reflexivity|].
  intros x y Hx Hy. rewrite (Hb x y Hx Hy). reflexivity.
Qed.

End OnAHost.

Lemma lerp_toward_wider_cannot_render_witness :
  exists r, Math_lerp (Obj Scalar_zero) (Obj Vector3_white) 0.5 = Ok (Obj r)
            /\ render Examples.Number_toString r
               = Throw (Error "Invalid arguments for Math.clamp").
Proof.
  apply (lerp_toward_wider_cannot_render Examples.Number_toString
           Scalar_zero Vector3_white 0.5).
  vm_compute. lia.
Defined.

Lemma render_channels_clamped_witness :
  exists kr kg kb,
    render Examples.Number_toString Vector3_purple
    = Ok ("rgb(" ++ Examples.Number_toString (kr * 255) ++ ", "
            ++ Examples.Number_toString (kg * 255)
            ++ ", " ++ Examples.Number_toString (kb * 255) ++ ")")
    /\ ((0 <=? kr) && (kr <=? 1) && (0 <=? kg) && (kg <=? 1)
        && (0 <=? kb) && (kb <=? 1))%bool = true
    /\ True.
Proof.
  apply (render_channels_clamped Examples.Number_toString Vector3_purple). reflexivity.
Defined.

Lemma constant_program_uniform_image_witness :
  exists ctx,
    Canvas.canvas_after
      (Canvas.useEffect
         (Sample.accepting (program_of Examples.Number_toString (fun _ => Ok Vector3_red)))
         (Some Sample.blank) "")
    = Some {| Canvas.getContext := Some ctx |}
    /\ forall x y, (x < Canvas.renderSize)%nat -> (y < Canvas.renderSize)%nat ->
                   Canvas.bitmap ctx !! (x, y)
                   = Some match render Examples.Number_toString Vector3_red with
                          | Ok style => style
                          | Throw _ => "#000000"
                          end.
Proof.
  exact (constant_program_uniform_image Examples.Number_toString
           (Sample.accepting (program_of Examples.Number_toString (fun _ => Ok Vector3_red)))
           "" Vector3_red "#000000" ∅ eq_refl).
Defined.

End Rendering.

(** ** [Vector3.fromHex] *)

Module Hex.

Import HLSL Geometry.

Local Open Scope float_scope.

Lemma hex_digit_bound (c : ascii) (h : nat) : hex_digit c = Some h -> (h < 16)%nat.
Proof.
  unfold hex_digit.
  repeat match goal with
         | |- context [(?a <=? ?b)%nat] => destruct (Nat.leb_spec a b)
         end; simpl; intros E; inversion E; lia.
Qed.

Lemma hex_pair_bound (c d : ascii) (n : nat) : hex_pair c d = Some n -> (n < 256)%nat.
Proof.
  unfold hex_pair.
  destruct (hex_digit c) as [h|] eqn:Hc; [|discriminate].
  destruct (hex_digit d) as [l|] eqn:Hd; [|discriminate].
  intros H. inversion H. apply hex_digit_bound in Hc, Hd. lia.
Qed.

(** Every byte divided by 255 lies between 0 and 1. *)
Lemma byte_fraction_range (n : nat) :
  (n < 256)%nat ->
  ((0 <=? Canvas.number_of_nat n / 255) && (Canvas.number_of_nat n / 255 <=? 1))%bool = true.
Proof.
  intros Hn.
  assert (T : forallb (fun n => ((0 <=? Canvas.number_of_nat n / 255)
                                 && (Canvas.number_of_nat n / 255 <=? 1))%bool)
                      (seq 0 256) = true) by (vm_compute; reflexivity).
  rewrite forallb_forall in T. apply T, in_seq. lia.
Qed.

(** X22: [Vector3.fromHex] either throws [Invalid color string] or returns
    a [Vector3] with three numbers between 0 and 1, and it can only succeed
    on a string of seven characters. *)
Theorem Vector3_fromHex_range (color : string) :
  match Vector3_fromHex color with
  | Ok v =>
      String.length color = 7%nat
      /\ exists r g b,
          v = Vector3 (Num r) (Num g) (Num b)
          /\ ((0 <=? r) && (r <=? 1))%bool = true
          /\ ((0 <=? g) && (g <=? 1))%bool = true
          /\ ((0 <=? b) && (b <=? 1))%bool = true
  | Throw e => e = Error "Invalid color string"
  end.
Proof.
  destruct color as [|c0 [|c1 [|c2 [|c3 [|c4 [|c5 [|c6 [|c7 rest]]]]]]]];
    try reflexivity.
  unfold Vector3_fromHex.
  destruct (nat_of_ascii c0 =? 35)%nat; [|reflexivity].
  destruct (hex_pair c1 c2) as [r|] eqn:Hr; [|reflexivity].
  destruct (hex_pair c3 c4) as [g|] eqn:Hg; [|reflexivity].
  destruct (hex_pair c5 c6) as [b|] eqn:Hb; [|reflexivity].
  split; [reflexivity|]. do 3 eexists. split; [reflexivity|].
  apply hex_pair_bound in Hr, Hg, Hb.
  auto using byte_fraction_range.
Qed.




End Hex.

(** ** [Logger] *)

Module LogFacts.

Lemma append_assoc (a b c : string) : ((a ++ b) ++ c)%string = (a ++ b ++ c)%string.
Proof.
  induction a as [|ch a IH]; [reflexivity|].
  change (String ch ((a ++ b) ++ c) = String ch (a ++ b ++ c)).
  rewrite IH. reflexivity.
Qed.

Lemma concat_snoc (sep line : string) (lines : list string) :
  String.concat sep (lines ++ [line])%list
  = match lines with
    | [] => line
    | _ :: _ => (String.concat sep lines ++ sep ++ line)%string
    end.
Proof.
  induction lines as [|l1 lines IH]; [reflexivity|].
  destruct lines as [|l2 lines]; [reflexivity|].
  change (String.concat sep ((l1 :: l2 :: lines) ++ [line])%list)
    with (l1 ++ sep ++ String.concat sep ((l2 :: lines) ++ [line])%list)%string.
  rewrite IH.
  change (String.concat sep (l1 :: l2 :: lines))
    with (l1 ++ sep ++ String.concat sep (l2 :: lines))%string.
  rewrite !append_assoc. reflexivity.
Qed.

(** X24: the text of a log grows by appending: after one more call of
    [log], [warn] or [error], [toString] is the previous text, a newline and
    the new line (with its [WARNING: ] or [ERROR: ] prefix); the first line
    has no newline before it. *)
Theorem toString_after_push (l : Logger.Logger) (message : list string) :
  let extend (line : string) :=
    match Logger.logs l with
    | [] => line
    | _ :: _ => Logger.toString l ++ Logger.newline ++ line
    end in
  Logger.toString (Logger.log message l) = extend (Logger.join " " message)
  /\ Logger.toString (Logger.warn message l)
     = extend ("WARNING: " ++ Logger.join " " message)
  /\ Logger.toString (Logger.error message l)
     = extend ("ERROR: " ++ Logger.join " " message).
Proof.
  unfold Logger.toString, Logger.log, Logger.warn, Logger.error, Logger.push,
    Logger.join. simpl. repeat split; apply concat_snoc.
Qed.

End LogFacts.

(** ** The order of the calls and the texture coordinates *)

Module Order.

Import HLSL Canvas.

Local Open Scope float_scope.

(** The coordinate of a column (or row) of the square. *)
Lemma coordinate_range (x : nat) :
  (x < renderSize)%nat ->
  ((0 <=? number_of_nat x / number_of_nat renderSize)
   && (number_of_nat x / number_of_nat renderSize <? 1))%bool = true.
Proof.
  intros Hx.
  assert (T : forallb (fun x => ((0 <=? number_of_nat x / number_of_nat renderSize)
                                 && (number_of_nat x / number_of_nat renderSize <? 1))%bool)
                      (seq 0 renderSize) = true) by (vm_compute; reflexivity).
  rewrite forallb_forall in T. apply T, in_seq. lia.
Qed.

Lemma coordinate_injective (x x' : nat) :
  (x < renderSize)%nat -> (x' < renderSize)%nat ->
  number_of_nat x / number_of_nat renderSize = number_of_nat x' / number_of_nat renderSize ->
  x = x'.
Proof.
  intros Hx Hx' E.
  (* the column of a coordinate: the integer value of [u * renderSize] *)
  pose (column := fun u : float =>
          match Prim2SF (u * number_of_nat renderSize) with
          | S754_finite false m e => Z.shiftl (Zpos m) e
          | _ => 0%Z
          end).
  assert (T : forallb (fun x => Z.eqb (column (number_of_nat x / number_of_nat renderSize))
                                      (Z.of_nat x))
                      (seq 0 renderSize) = true) by (vm_compute; reflexivity).
  rewrite forallb_forall in T.
  pose proof (T x ltac:(apply in_seq; lia)) as T1.
  pose proof (T x' ltac:(apply in_seq; lia)) as T2.
  apply Z.eqb_eq in T1, T2. rewrite E in T1. lia.
Qed.

(** X25: the texture coordinate of every pixel of the square has both
    components in [0, 1), and two different pixels have different texture
    coordinates. *)
Theorem texCoord_range_injective (x y x' y' : nat) :
  (x < renderSize)%nat -> (y < renderSize)%nat ->
  (x' < renderSize)%nat -> (y' < renderSize)%nat ->
  (exists u v, texCoord_at x y = Vector2 (Num u) (Num v)
               /\ ((0 <=? u) && (u <? 1))%bool = true
               /\ ((0 <=? v) && (v <? 1))%bool = true)
  /\ (texCoord_at x y = texCoord_at x' y' -> x = x' /\ y = y').
Proof.
  intros Hx Hy Hx' Hy'. split.
  - do 2 eexists. split; [reflexivity|]. auto using coordinate_range.
  - unfold texCoord_at. intros E. inversion E as [[Eu Ev]].
    split; eapply coordinate_injective; eassumption.
Qed.

Lemma texCoord_range_injective_witness :
  (exists u v, texCoord_at 128 256 = Vector2 (Num u) (Num v)
               /\ ((0 <=? u) && (u <? 1))%bool = true
               /\ ((0 <=? v) && (v <? 1))%bool = true)
  /\ (texCoord_at 128 256 = texCoord_at 128 256 -> 128%nat = 128%nat /\ 256%nat = 256%nat).
Proof.
  apply (texCoord_range_injective 128 256 128 256); vm_compute; lia.
Defined.

#[local] Opaque renderSize.

Lemma nth_cells (m n a x y : nat) (d : nat * nat) :
  (x < n)%nat -> (y < m)%nat ->
  nth (x * m + y) (list_prod (seq a n) (seq 0 m)) d = ((a + x)%nat, y).
Proof.
  revert a x. induction n as [|n IH]; intros a x Hx Hy; [lia|].
  cbn [seq list_prod]. destruct x as [|x].
  - rewrite app_nth1 by (rewrite length_map, length_seq; lia).
    rewrite (nth_indep _ d (a, 0%nat)) by (rewrite length_map, length_seq; lia).
    rewrite (map_nth (fun y => (a, y))), seq_nth by lia.
    f_equal; lia.
  - rewrite app_nth2 by (rewrite length_map, length_seq; lia).
    rewrite length_map, length_seq.
    replace (S x * m + y - m)%nat with (x * m + y)%nat by lia.
    rewrite IH by lia. f_equal; lia.
Qed.

(** X26: after a successful compile the program is called in column order:
    the call number [x * 512 + y] (from 0) is the one for the pixel at
    column [x] and row [y], with that pixel's texture coordinate. *)
Theorem invocation_order
    (new_Function : string -> result RenferFunction) (code : string)
    (program : RenferFunction) (style0 : string) (pixels0 : gmap (nat * nat) string)
    (x y : nat) (d : Renderable) :
  new_Function (code ++ Logger.newline ++ "return main();") = Ok program ->
  (x < renderSize)%nat -> (y < renderSize)%nat ->
  nth (x * renderSize + y)
      (invocations (useEffect new_Function (Some (canvas_element style0 pixels0)) code)) d
  = texCoord_at x y.
Proof.
  intros Hok Hx Hy. unfold useEffect, try_block, canvas_element.
  cbn [getContext]. rewrite Hok. cbn [invocations].
  rewrite Raster.pixel_loop_invoked. unfold rect.
  rewrite (nth_indep _ d (texCoord_at 0 0))
    by (rewrite length_map, length_prod, !length_seq; nia).
  rewrite (map_nth (fun p => texCoord_at (fst p) (snd p)) _ (0%nat, 0%nat)).
  rewrite (nth_cells renderSize renderSize 0 x y) by assumption.
  reflexivity.
Qed.

Lemma invocation_order_witness :
  nth (3 * renderSize + 5)
      (invocations (useEffect (Sample.accepting Sample.throwing) (Some Sample.blank) ""))
      (Scalar Undefined)
  = texCoord_at 3 5.
Proof.
  apply (invocation_order (Sample.accepting Sample.throwing) "" Sample.throwing
           "#000000" ∅ 3 5 (Scalar Undefined) eq_refl);
    apply Nat.ltb_lt; vm_compute; reflexivity.
Defined.

End Order.

(** ** What leaves the effect *)

Module Escapes.

Import HLSL Canvas.

#[local] Opaque renderSize.


End Escapes.
